(** * Agr_iFarma: session cart, catalog API and login of [app.py]

    A shallow embedding of the request handlers of
    [final project/LAST project/app.py] and of the tables of [models.py].

    - Python values that reach the handlers untyped (JSON payload fields, the
      quantity stored in a cart line, totals) are values of [pyval]; the
      arithmetic the handlers perform on them ([+=], [*], [sum], [int],
      [float], [str]) follows the interpreter, including the exceptions it
      raises.
    - A handler is a computation in a state-and-exception monad over [world]
      (the Flask session and the committed rows of the database): a mutation
      made before a [raise] stays made, as in Python.
    - A Python [dict] is an association list in insertion order; between two
      requests the session travels in Flask's cookie, which writes the keys
      of a dictionary in sorted order ([next_request]). *)

From Stdlib Require Import ZArith String Ascii List Lia Permutation.
From Stdlib Require Import Floats DecimalString DecimalZ DecimalPos.
Import ListNotations.

Set Warnings "-register-all,-inexact-float".

Local Open Scope string_scope.
Local Open Scope Z_scope.

(** ** Python values and exceptions *)

Inductive pyval : Type :=
| PyNone
| PyBool (b : bool)
| PyInt (z : Z)
| PyFloat (f : float)
| PyStr (s : string)
| PyList (items : list pyval)
| PyDict (fields : list (string * pyval)).

(** The exception classes the handlers can meet.  [NotFound] is werkzeug's
    [HTTPException] raised by [get_or_404]; like the others it derives from
    [Exception]. *)
Inductive exn_class : Type :=
| KeyError
| ValueError
| TypeError
| OverflowError
| UnboundLocalError
| NotFound.

(** An exception: its class and [str(e)]. *)
Record exn : Type := Exn { exn_cls : exn_class; exn_str : string }.

Inductive result (A : Type) : Type :=
| Ok (a : A)
| Raise (e : exn).

Arguments Ok {A} a.
Arguments Raise {A} e.

Definition rbind {A B} (r : result A) (k : A -> result B) : result B :=
  match r with
  | Ok a => k a
  | Raise e => Raise e
  end.

Declare Scope result_scope.
Delimit Scope result_scope with result.
Notation "x <-- r ;; k" := (rbind r (fun x => k))
  (at level 61, r at next level, right associativity) : result_scope.

Definition type_name (v : pyval) : string :=
  match v with
  | PyNone => "NoneType"
  | PyBool _ => "bool"
  | PyInt _ => "int"
  | PyFloat _ => "float"
  | PyStr _ => "str"
  | PyList _ => "list"
  | PyDict _ => "dict"
  end.

Definition squote (s : string) : string := "'" ++ s ++ "'".

(** The double-quote character, which some interpreter messages contain. *)
Definition dquote : string := String (ascii_of_nat 34) EmptyString.

Fixpoint contains (c : ascii) (s : string) : bool :=
  match s with
  | EmptyString => false
  | String c' rest => if Ascii.eqb c c' then true else contains c rest
  end.

Definition hex_digit (n : nat) : string :=
  String (nth n (list_ascii_of_string "0123456789abcdef") "0"%char) EmptyString.

Definition backslash : ascii := ascii_of_nat 92.

(** One character of [repr(s)] inside the quote character [quote]. *)
Definition repr_char (quote c : ascii) : string :=
  let n := nat_of_ascii c in
  if Ascii.eqb c backslash then String backslash (String backslash EmptyString)
  else if Ascii.eqb c quote then String backslash (String c EmptyString)
  else if Nat.eqb n 10 then String backslash "n"
  else if Nat.eqb n 13 then String backslash "r"
  else if Nat.eqb n 9 then String backslash "t"
  else if orb (Nat.ltb n 32) (Nat.eqb n 127)
       then String backslash
              ("x" ++ hex_digit (Nat.div n 16) ++ hex_digit (Nat.modulo n 16))
       else String c EmptyString.

Fixpoint repr_chars (quote : ascii) (s : string) : string :=
  match s with
  | EmptyString => EmptyString
  | String c rest => repr_char quote c ++ repr_chars quote rest
  end.

(** [repr(s)]: the text between apostrophes, or between double quotes when
    it holds an apostrophe and no double quote; the backslash, the quote
    character and the control characters are escaped.  A byte above 127 is
    part of a printable character and is kept. *)
Definition py_repr_str (s : string) : string :=
  let quote :=
    if andb (contains "'"%char s) (negb (contains (ascii_of_nat 34) s))
    then ascii_of_nat 34 else "'"%char in
  String quote (repr_chars quote s ++ String quote EmptyString).

(** [str(z)] for an integer. *)
Definition py_str_int (z : Z) : string := NilZero.string_of_int (Z.to_int z).

(** [int(s)] for a string: an optional minus sign and decimal digits.  The
    interpreter also accepts a plus sign, surrounding blanks and underscores
    between digits; here those raise like any other text.  The interpreter
    refuses a text of more than [int_max_str_digits] digits, which this
    function reads: the properties that send a text to [int] bound its
    length ([text_within_limit]). *)
Definition py_int_of_str (s : string) : result Z :=
  match NilZero.int_of_string s with
  | Some d => Ok (Z.of_int d)
  | None =>
      Raise (Exn ValueError
               ("invalid literal for int() with base 10: " ++ py_repr_str s))
  end.

(** Conversion of an integer to a binary64 float, rounding to nearest even;
    the interpreter raises when the rounded value is not finite. *)
Definition py_float_of_int (z : Z) : result float :=
  match SpecFloat.binary_normalize FloatOps.prec FloatOps.emax z 0 false with
  | SpecFloat.S754_infinity _ =>
      Raise (Exn OverflowError "int too large to convert to float")
  | sf => Ok (FloatOps.SF2Prim sf)
  end.

(** Truncation of a float toward zero, [int(f)]. *)
Definition py_int_of_float (f : float) : result Z :=
  match FloatOps.Prim2SF f with
  | SpecFloat.S754_zero _ => Ok 0
  | SpecFloat.S754_infinity _ =>
      Raise (Exn OverflowError "cannot convert float infinity to integer")
  | SpecFloat.S754_nan =>
      Raise (Exn ValueError "cannot convert float NaN to integer")
  | SpecFloat.S754_finite sgn m e =>
      let mag := if 0 <=? e then Z.shiftl (Z.pos m) e
                 else Z.shiftr (Z.pos m) (- e) in
      Ok (if sgn then - mag else mag)
  end.

Definition Z_of_bool (b : bool) : Z := if b then 1 else 0.

(** [int(v)]. *)
Definition py_int (v : pyval) : result Z :=
  match v with
  | PyInt z => Ok z
  | PyBool b => Ok (Z_of_bool b)
  | PyFloat f => py_int_of_float f
  | PyStr s => py_int_of_str s
  | _ =>
      Raise (Exn TypeError
               ("int() argument must be a string, a bytes-like object or a real number, not "
                ++ squote (type_name v)))
  end.

(** The numeric tower: [bool] and [int] are integers, anything mixed with a
    float is a float. *)
Inductive number : Type :=
| NumInt (z : Z)
| NumFloat (f : float).

Definition as_number (v : pyval) : option number :=
  match v with
  | PyBool b => Some (NumInt (Z_of_bool b))
  | PyInt z => Some (NumInt z)
  | PyFloat f => Some (NumFloat f)
  | _ => None
  end.

Definition float_of_number (n : number) : result float :=
  match n with
  | NumInt z => py_float_of_int z
  | NumFloat f => Ok f
  end.

Definition num_add (a b : number) : result pyval :=
  match a, b with
  | NumInt x, NumInt y => Ok (PyInt (x + y))
  | _, _ =>
      (x <-- float_of_number a ;;
       y <-- float_of_number b ;;
       Ok (PyFloat (x + y)%float))%result
  end.

Definition num_mul (a b : number) : result pyval :=
  match a, b with
  | NumInt x, NumInt y => Ok (PyInt (x * y))
  | _, _ =>
      (x <-- float_of_number a ;;
       y <-- float_of_number b ;;
       Ok (PyFloat (x * y)%float))%result
  end.

Definition unsupported (op : string) (a b : pyval) : exn :=
  Exn TypeError
    ("unsupported operand type(s) for " ++ op ++ ": "
     ++ squote (type_name a) ++ " and " ++ squote (type_name b)).

(** The characters of a string, as [list(s)] gives them. *)
Fixpoint py_chars (s : string) : list pyval :=
  match s with
  | EmptyString => []
  | String c rest => PyStr (String c EmptyString) :: py_chars rest
  end.

(** [a += b]: the value bound to the left-hand side afterwards. *)
Definition py_iadd (a b : pyval) : result pyval :=
  match as_number a, as_number b with
  | Some x, Some y => num_add x y
  | _, _ =>
      match a, b with
      | PyStr s, PyStr t => Ok (PyStr (s ++ t))
      | PyStr _, _ =>
          Raise (Exn TypeError
                   ("can only concatenate str (not " ++ dquote ++ type_name b
                    ++ dquote ++ ") to str"))
      | PyList l, PyList m => Ok (PyList (l ++ m))
      | PyList l, PyStr t => Ok (PyList (l ++ py_chars t))
      | PyList l, PyDict d => Ok (PyList (l ++ map (fun kv => PyStr (fst kv)) d))
      | PyList _, _ =>
          Raise (Exn TypeError (squote (type_name b) ++ " object is not iterable"))
      | _, _ => Raise (unsupported "+=" a b)
      end
  end.

(** [a + b] where the left operand is a number, as [sum] uses it. *)
Definition py_add (a b : pyval) : result pyval :=
  match as_number a, as_number b with
  | Some x, Some y => num_add x y
  | _, _ => Raise (unsupported "+" a b)
  end.

(** [a * b] where the left operand is a float (a cart line's price). *)
Definition py_mul (a b : pyval) : result pyval :=
  match as_number a, as_number b with
  | Some x, Some y => num_mul x y
  | _, _ =>
      match a, b with
      | PyFloat _, PyStr _ | PyFloat _, PyList _ =>
          Raise (Exn TypeError
                   "can't multiply sequence by non-int of type 'float'")
      | _, _ => Raise (unsupported "*" a b)
      end
  end.

(** [sum(gen)]: the accumulator starts at the integer 0 and the generator
    is consumed from the left, each element being computed when it is
    reached. *)
Fixpoint py_sum_from (acc : pyval) (gen : list (result pyval)) : result pyval :=
  match gen with
  | [] => Ok acc
  | x :: rest =>
      (v <-- x ;;
       acc' <-- py_add acc v ;;
       py_sum_from acc' rest)%result
  end.

Definition py_sum (gen : list (result pyval)) : result pyval :=
  py_sum_from (PyInt 0) gen.

(** ** Dictionaries: association lists in insertion order *)

Definition dict (V : Type) : Type := list (string * V).

Fixpoint dict_get {V} (k : string) (d : dict V) : option V :=
  match d with
  | [] => None
  | (k', v) :: rest => if String.eqb k k' then Some v else dict_get k rest
  end.

(** [d[k] = v]: an existing key keeps its place, a new key goes last. *)
Fixpoint dict_set {V} (k : string) (v : V) (d : dict V) : dict V :=
  match d with
  | [] => [(k, v)]
  | (k', v') :: rest =>
      if String.eqb k k' then (k', v) :: rest else (k', v') :: dict_set k v rest
  end.

(** [del d[k]], for a key that is present. *)
Fixpoint dict_del {V} (k : string) (d : dict V) : dict V :=
  match d with
  | [] => []
  | (k', v') :: rest =>
      if String.eqb k k' then rest else (k', v') :: dict_del k rest
  end.

Definition dict_keys {V} (d : dict V) : list string := map fst d.
Definition dict_values {V} (d : dict V) : list V := map snd d.
Definition len {A} (l : list A) : Z := Z.of_nat (length l).

(** ** Tables of [models.py] and the session *)

Record User : Type := {
  u_id : Z;
  u_name : string;
  u_email : string;
  u_password : string;
  u_role : string
}.

(** A row of the product table.  The database keeps the integers of a row
    within 64 bits and has no value for a float that is not a number; the
    properties about the rows a request writes are about a stock within
    that range ([sqlite_integer]) and a price above zero.  The text columns hold
    text: a payload with a JSON [null] for one of them is outside
    [product_payload]. *)
Record Product : Type := {
  p_id : Z;
  p_name : string;
  p_category : string;
  p_price : float;
  p_image : string;
  p_seller_id : option Z;
  p_description : string;
  p_stock : Z;
  p_origin : string
}.

(** One value of the session's ['cart'] dictionary: the dictionary literal of
    [add_to_cart] and [api_add_to_cart].  Only ['quantity'] is stored as it
    was received. *)
Record cart_line : Type := {
  l_id : Z;
  l_name : string;
  l_price : float;
  l_quantity : pyval;
  l_image : string
}.

Definition with_quantity (line : cart_line) (q : pyval) : cart_line :=
  {| l_id := l_id line; l_name := l_name line; l_price := l_price line;
     l_quantity := q; l_image := l_image line |}.

(** The keys of Flask's [session] that the application uses; [None] is an
    absent key.  [s_flashes] are the messages queued by [flash]. *)
Record session : Type := {
  s_user : option Z;
  s_name : option string;
  s_role : option string;
  s_cart : option (dict cart_line);
  s_flashes : list string
}.

Record world : Type := {
  w_session : session;
  w_products : list Product;
  w_users : list User
}.

Definition empty_session : session :=
  {| s_user := None; s_name := None; s_role := None; s_cart := None;
     s_flashes := [] |}.

Definition set_cart (c : dict cart_line) (s : session) : session :=
  {| s_user := s_user s; s_name := s_name s; s_role := s_role s;
     s_cart := Some c; s_flashes := s_flashes s |}.

Definition set_principal (u : User) (s : session) : session :=
  {| s_user := Some (u_id u); s_name := Some (u_name u);
     s_role := Some (u_role u); s_cart := s_cart s;
     s_flashes := s_flashes s |}.

Definition add_flash (msg : string) (s : session) : session :=
  {| s_user := s_user s; s_name := s_name s; s_role := s_role s;
     s_cart := s_cart s; s_flashes := s_flashes s ++ [msg] |}.

Definition with_session (s : session) (w : world) : world :=
  {| w_session := s; w_products := w_products w; w_users := w_users w |}.

Definition with_products (ps : list Product) (w : world) : world :=
  {| w_session := w_session w; w_products := ps; w_users := w_users w |}.

(** ** Handlers as computations over the world *)

Definition M (A : Type) : Type := world -> result A * world.

Definition ret {A} (a : A) : M A := fun w => (Ok a, w).

Definition bind {A B} (m : M A) (k : A -> M B) : M B :=
  fun w =>
    match m w with
    | (Ok a, w') => k a w'
    | (Raise e, w') => (Raise e, w')
    end.

Definition raise {A} (e : exn) : M A := fun w => (Raise e, w).

Definition lift {A} (r : result A) : M A := fun w => (r, w).

(** [try: body  except Exception as e: handler(e)]. *)
Definition try_except {A} (body : M A) (handler : exn -> M A) : M A :=
  fun w =>
    match body w with
    | (Ok a, w') => (Ok a, w')
    | (Raise e, w') => handler e w'
    end.

Declare Scope handler_scope.
Delimit Scope handler_scope with handler.
Notation "x <- m ;; k" := (bind m (fun x => k))
  (at level 61, m at next level, right associativity) : handler_scope.
Notation "m ;;; k" := (bind m (fun _ => k))
  (at level 61, right associativity) : handler_scope.

(** [d.get(key, default)], for a key that is absent ([None]) or bound. *)
Definition get_default {A} (field : option A) (default : A) : A :=
  match field with
  | Some v => v
  | None => default
  end.

(** The cart a handler finds in the session, [session.get('cart', {})]. *)
Definition cart_of (w : world) : dict cart_line :=
  get_default (s_cart (w_session w)) [].

Definition session_get_cart : M (dict cart_line) :=
  fun w => (Ok (cart_of w), w).

(** [session['cart'] = cart]. *)
Definition session_set_cart (c : dict cart_line) : M unit :=
  fun w => (Ok tt, with_session (set_cart c (w_session w)) w).

Definition flash (msg : string) : M unit :=
  fun w => (Ok tt, with_session (add_flash msg (w_session w)) w).

(** *** The session between two requests

    Flask keeps the session in a signed cookie, written as JSON with the
    keys of every dictionary in sorted order: whatever the order in which a
    handler stored the lines of the cart, the next request finds them in the
    order of their keys. *)

Fixpoint insert_by_key {V} (kv : string * V) (d : dict V) : dict V :=
  match d with
  | [] => [kv]
  | kv' :: rest =>
      if String.leb (fst kv) (fst kv') then kv :: d
      else kv' :: insert_by_key kv rest
  end.

Definition sorted_by_key {V} (d : dict V) : dict V :=
  fold_right insert_by_key [] d.

(** The world the next request of the session starts in. *)
Definition next_request (w : world) : world :=
  match s_cart (w_session w) with
  | Some c => with_session (set_cart (sorted_by_key c) (w_session w)) w
  | None => w
  end.

(** The integers the database stores and looks up: 64 bits, signed. *)
Definition sqlite_integer (z : Z) : bool :=
  andb (- 2 ^ 63 <=? z) (z <? 2 ^ 63).

(** What the database driver raises for any other integer. *)
Definition sqlite_overflow : exn :=
  Exn OverflowError "Python int too large to convert to SQLite INTEGER".

(** [Product.query.get(id)] when it answers: the row with that primary
    key, or [None].  The key column holds 64-bit integers; for any other
    integer the lookup does not answer, the driver raises
    [sqlite_overflow]: [get_or_404] and the loop of [api_get_cart], which
    call it, raise in its place. *)
Definition query_get (ps : list Product) (id : Z) : option Product :=
  if sqlite_integer id then find (fun p => p_id p =? id) ps else None.

(** The committed rows of the product table. *)
Definition all_products : M (list Product) :=
  fun w => (Ok (w_products w), w).

(** [str(e)] of the exception [abort(404)] raises. *)
Definition not_found : exn :=
  Exn NotFound
    "404 Not Found: The requested URL was not found on the server. If you entered the URL manually please check your spelling and try again.".

Definition get_or_404 (id : Z) : M Product :=
  fun w =>
    match query_get (w_products w) id with
    | Some p => (Ok p, w)
    | None =>
        if sqlite_integer id then (Raise not_found, w)
        else (Raise sqlite_overflow, w)
    end.

(** What a handler returns: a JSON answer with its status, a page rendered
    from the arguments the handler gives the template, or a redirect. *)
Inductive response : Type :=
| Json (status : Z) (body : pyval)
| CartPage (cart : list cart_line) (total : pyval)
| LoginPage (email password : string)
| Redirect (endpoint : string).

Definition jsonify (fields : list (string * pyval)) : response :=
  Json 200 (PyDict fields).

(** The body every API handler returns from its [except] clause. *)
Definition error_body (e : exn) : pyval :=
  PyDict [("success", PyBool false); ("error", PyStr (exn_str e))].

Definition json_error (status : Z) (e : exn) : M response :=
  ret (Json status (error_body e)).

(** ** The sample catalog inserted at start-up (lines 16-73)

    The rows get the keys 1 to 6; no seller is given, and the columns
    without a value take their declared defaults. *)

Definition sample (id : Z) (name category : string) (price : float)
    (image description : string) (stock : Z) : Product :=
  {| p_id := id; p_name := name; p_category := category; p_price := price;
     p_image := image; p_seller_id := None; p_description := description;
     p_stock := stock; p_origin := "" |}.

Definition sample_products : list Product :=
  [ sample 1 "Organic Tomatoes" "Vegetables" 3.99
      "https://images.unsplash.com/photo-1546470427-e212d4d25323?w=400"
      "Fresh organic tomatoes grown without pesticides, perfect for salads and cooking."
      50;
    sample 2 "Fresh Apples" "Fruits" 2.49
      "https://images.unsplash.com/photo-1568702846914-96b305d2aaeb?w=400"
      "Crisp and juicy red apples, hand-picked from our orchard."
      75;
    sample 3 "Whole Wheat Flour" "Grains" 4.99
      "https://images.unsplash.com/photo-1574323347407-f5e1ad6d020b?w=400"
      "Stone-ground whole wheat flour from organic wheat grains."
      30;
    sample 4 "Farm Fresh Eggs" "Dairy" 5.99
      "https://images.unsplash.com/photo-1582722872445-44dc5f7e3c8f?w=400"
      "Free-range eggs from happy chickens raised on natural feed."
      40;
    sample 5 "Organic Spinach" "Organic" 2.99
      "https://images.unsplash.com/photo-1576045057995-568f588f82fb?w=400"
      "Tender organic spinach leaves, packed with nutrients."
      60;
    sample 6 "Garden Shovel" "Farm Tools" 24.99
      "https://images.unsplash.com/photo-1572984334707-0c0df46957a9?w=400"
      "Durable steel garden shovel perfect for all your farming needs."
      15 ].

(** [if Product.query.count() == 0: ... add the samples ...]. *)
Definition seed (ps : list Product) : list Product :=
  match ps with
  | [] => sample_products
  | _ => ps
  end.

Definition initial_world : world :=
  {| w_session := empty_session; w_products := seed []; w_users := [] |}.

(** ** The session cart: [/add_to_cart], [/cart], [/remove_from_cart] *)

(** The dictionary literal stored for a product that is not yet in the cart;
    [float(product.price)] is the price itself, the column being a float. *)
Definition new_line (product : Product) (quantity : pyval) : cart_line :=
  {| l_id := p_id product; l_name := p_name product;
     l_price := p_price product; l_quantity := quantity;
     l_image := p_image product |}.

(** The [if str(product_id) in cart: ... else: ...] statement, which
    [add_to_cart] (lines 184-193) and [api_add_to_cart] (lines 395-404)
    share word for word. *)
Definition cart_add (key : string) (product : Product) (quantity : pyval)
    (cart : dict cart_line) : result (dict cart_line) :=
  match dict_get key cart with
  | Some line =>
      (q <-- py_iadd (l_quantity line) quantity ;;
       Ok (dict_set key (with_quantity line q) cart))%result
  | None => Ok (dict_set key (new_line product quantity) cart)
  end.

Definition added_message (product : Product) : pyval :=
  PyStr (p_name product ++ " added to cart!").

Definition removed_message (name : string) : pyval :=
  PyStr (name ++ " removed from cart!").

(** [request.form.get('quantity', 1)]: the field's text, or the integer 1. *)
Definition form_get_quantity (field : option string) : pyval :=
  match field with
  | Some s => PyStr s
  | None => PyInt 1
  end.

(** [POST /add_to_cart/<int:product_id>], lines 176-197. *)
Definition add_to_cart (product_id : Z) (form_quantity : option string)
  : M response :=
  (quantity <- lift (py_int (form_get_quantity form_quantity)) ;;
   product <- get_or_404 product_id ;;
   cart <- session_get_cart ;;
   cart' <- lift (cart_add (py_str_int product_id) product (PyInt quantity) cart) ;;
   session_set_cart cart' ;;;
   ret (jsonify [("success", PyBool true);
                 ("message", added_message product);
                 ("cart_count", PyInt (len cart'))]))%handler.

(** The generator [item['price'] * item['quantity'] for item in cart_items]. *)
Definition line_amounts (cart_items : list cart_line) : list (result pyval) :=
  map (fun item => py_mul (PyFloat (l_price item)) (l_quantity item)) cart_items.

(** [GET /cart], lines 200-205. *)
Definition view_cart : M response :=
  (cart <- session_get_cart ;;
   let cart_items := dict_values cart in
   total <- lift (py_sum (line_amounts cart_items)) ;;
   ret (CartPage cart_items total))%handler.

(** [GET /remove_from_cart/<int:product_id>], lines 208-219.  The local
    variable [product_name] is bound only inside the [if]; reading it
    unbound raises. *)
Definition remove_from_cart (product_id : Z) : M response :=
  (cart <- session_get_cart ;;
   let product_id_str := py_str_int product_id in
   product_name <-
     match dict_get product_id_str cart with
     | Some line =>
         session_set_cart (dict_del product_id_str cart) ;;;
         ret (Some (l_name line))
     | None => ret None
     end ;;
   match product_name with
   | Some name =>
       ret (jsonify [("success", PyBool true);
                     ("message", removed_message name)])
   | None =>
       raise (Exn UnboundLocalError
                "cannot access local variable 'product_name' where it is not associated with a value")
   end)%handler.

(** ** The cart API: [/api/cart] *)

Definition default_image : string :=
  "https://images.unsplash.com/photo-1613478223719-2ab802602423?w=400&q=80".

(** One element of ['items'] in the answer of [GET /api/cart].  A stored
    line always has its ['image'] key, so [item.get('image', ...)] is the
    stored image. *)
Definition cart_entry (product : Product) (item : cart_line) (subtotal : pyval)
  : pyval :=
  PyDict [("id", PyInt (p_id product));
          ("name", PyStr (l_name item));
          ("price", PyFloat (l_price item));
          ("quantity", l_quantity item);
          ("subtotal", subtotal);
          ("image", PyStr (l_image item))].

(** The [for product_id, item in cart.items()] loop of [api_get_cart],
    threading [cart_items] and [total]. *)
Fixpoint api_get_cart_loop (ps : list Product) (items : dict cart_line)
    (cart_items : list pyval) (total : pyval) : result (list pyval * pyval) :=
  match items with
  | [] => Ok (cart_items, total)
  | (product_id, item) :: rest =>
      (id <-- py_int (PyStr product_id) ;;
       match query_get ps id with
       | Some product =>
           subtotal <-- py_mul (PyFloat (l_price item)) (l_quantity item) ;;
           total' <-- py_iadd total subtotal ;;
           api_get_cart_loop ps rest
             (cart_items ++ [cart_entry product item subtotal]) total'
       | None =>
           if sqlite_integer id
           then api_get_cart_loop ps rest cart_items total
           else Raise sqlite_overflow
       end)%result
  end.

Definition api_get_cart_body : M response :=
  (cart <- session_get_cart ;;
   ps <- all_products ;;
   listing <- lift (api_get_cart_loop ps cart [] (PyInt 0)) ;;
   ret (jsonify [("success", PyBool true);
                 ("items", PyList (fst listing));
                 ("total", snd listing);
                 ("cart_count", PyInt (len cart))]))%handler.

(** [GET /api/cart], lines 349-381. *)
Definition api_get_cart : M response :=
  try_except api_get_cart_body (json_error 400).

(** The JSON object posted to [/api/cart]; [None] is an absent key.  The
    product identifier, when given, is a JSON integer, as the catalog's
    keys are.  The route itself converts nothing: for another JSON value
    that the database matches with a key ([1.0] for one) it stores the line
    under the text of that value, a key that [GET /api/cart] cannot read
    back; the properties of the carts the routes build are about requests
    that identify products by integers. *)
Record cart_post : Type := {
  cp_product_id : option Z;
  cp_quantity : option pyval
}.

(** [data[key]] for a key of the payload. *)
Definition subscript {A} (key : string) (field : option A) : result A :=
  match field with
  | Some v => Ok v
  | None => Raise (Exn KeyError (py_repr_str key))
  end.

Definition api_add_to_cart_body (data : cart_post) : M response :=
  (product_id <- lift (subscript "product_id" (cp_product_id data)) ;;
   let quantity := get_default (cp_quantity data) (PyInt 1) in
   product <- get_or_404 product_id ;;
   cart <- session_get_cart ;;
   cart' <- lift (cart_add (py_str_int product_id) product quantity cart) ;;
   session_set_cart cart' ;;;
   ret (jsonify [("success", PyBool true);
                 ("message", added_message product);
                 ("cart_count", PyInt (len cart'))]))%handler.

(** [POST /api/cart], lines 384-419. *)
Definition api_add_to_cart (data : cart_post) : M response :=
  try_except (api_add_to_cart_body data) (json_error 400).

Definition api_remove_from_cart_body (product_id : Z) : M response :=
  (cart <- session_get_cart ;;
   let product_id_str := py_str_int product_id in
   match dict_get product_id_str cart with
   | Some line =>
       let cart' := dict_del product_id_str cart in
       session_set_cart cart' ;;;
       ret (jsonify [("success", PyBool true);
                     ("message", removed_message (l_name line));
                     ("cart_count", PyInt (len cart'))])
   | None =>
       ret (Json 404 (PyDict [("success", PyBool false);
                              ("error", PyStr "Product not found in cart")]))
   end)%handler.

(** [DELETE /api/cart/remove/<int:product_id>], lines 422-449. *)
Definition api_remove_from_cart (product_id : Z) : M response :=
  try_except (api_remove_from_cart_body product_id) (json_error 400).

(** ** The catalog API: [/api/products] *)

(** The JSON object sent to [POST] and [PUT /api/products]; [None] is an
    absent key.  The text fields, when given, are JSON strings; the price and
    the stock are whatever JSON value the client sent, since the handlers
    convert them. *)
Record product_payload : Type := {
  pp_name : option string;
  pp_category : option string;
  pp_price : option pyval;
  pp_image : option string;
  pp_description : option string;
  pp_stock : option pyval;
  pp_origin : option string
}.

(** The primary key the database gives a new row: one more than the
    largest key in the table, as SQLite assigns it.  No property below
    depends on the rule. *)
Definition next_id (ps : list Product) : Z :=
  1 + fold_right (fun p m => Z.max (p_id p) m) 0 ps.

(** [db.session.add(new_product); db.session.commit()].  The commit fails
    on a stock the database cannot store, and nothing is written. *)
Definition db_insert (p : Product) : M unit :=
  fun w =>
    if sqlite_integer (p_stock p)
    then (Ok tt, with_products (w_products w ++ [p]) w)
    else (Raise sqlite_overflow, w).

(** [db.session.commit()] after the attributes of the row [p_id p] were
    assigned; when it fails, the handler's [rollback] leaves the row as it
    was. *)
Definition db_update (p : Product) : M unit :=
  fun w =>
    if sqlite_integer (p_stock p)
    then (Ok tt,
          with_products
            (map (fun q => if p_id q =? p_id p then p else q) (w_products w)) w)
    else (Raise sqlite_overflow, w).

(** [db.session.delete(product); db.session.commit()]. *)
Definition db_delete (p : Product) : M unit :=
  fun w =>
    (Ok tt,
     with_products
       (filter (fun q => negb (p_id q =? p_id p)) (w_products w)) w).

(** [session.get('user', 1)]. *)
Definition session_get_user : M Z :=
  fun w => (Ok (get_default (s_user (w_session w)) 1), w).

Section Application.

(** The interpreter's conversion of a decimal literal to a float; [None]
    when the text is not one. *)
Variable float_of_str : string -> option float.

(** [form.validate_on_submit()] of [forms.LoginForm] and werkzeug's
    [check_password_hash(hash, password)]. *)
Variable validate_on_submit : string -> string -> bool.
Variable check_password_hash : string -> string -> bool.

(** [float(v)]. *)
Definition py_float (v : pyval) : result float :=
  match v with
  | PyFloat f => Ok f
  | PyInt z => py_float_of_int z
  | PyBool b => py_float_of_int (Z_of_bool b)
  | PyStr s =>
      match float_of_str s with
      | Some f => Ok f
      | None =>
          Raise (Exn ValueError
                   ("could not convert string to float: " ++ py_repr_str s))
      end
  | _ =>
      Raise (Exn TypeError
               ("float() argument must be a string or a real number, not "
                ++ squote (type_name v)))
  end.

(** [int(data['stock'])] when the key is there. *)
Definition optional_stock (field : option pyval) : result (option Z) :=
  match field with
  | Some v => (z <-- py_int v ;; Ok (Some z))%result
  | None => Ok None
  end.

Definition api_add_product_body (data : product_payload) : M response :=
  (name <- lift (subscript "name" (pp_name data)) ;;
   category <- lift (subscript "category" (pp_category data)) ;;
   price_field <- lift (subscript "price" (pp_price data)) ;;
   price <- lift (py_float price_field) ;;
   let image := get_default (pp_image data) default_image in
   seller_id <- session_get_user ;;
   stock <- lift (optional_stock (pp_stock data)) ;;
   ps <- all_products ;;
   let new_product :=
     {| p_id := next_id ps; p_name := name; p_category := category;
        p_price := price; p_image := image; p_seller_id := Some seller_id;
        p_description := get_default (pp_description data) "";
        p_stock := get_default stock 0;
        p_origin := get_default (pp_origin data) "" |} in
   db_insert new_product ;;;
   ret (jsonify [("success", PyBool true);
                 ("message", PyStr "Product added successfully!");
                 ("id", PyInt (p_id new_product))]))%handler.

(** [POST /api/products], lines 252-288. *)
Definition api_add_product (data : product_payload) : M response :=
  try_except (api_add_product_body data) (json_error 400).

(** The attribute assignments of [api_update_product] reach the table only
    through the final [commit]; when one of them raises, nothing was
    committed. *)
Definition api_update_product_body (product_id : Z) (data : product_payload)
  : M response :=
  (product <- get_or_404 product_id ;;
   name <- lift (subscript "name" (pp_name data)) ;;
   category <- lift (subscript "category" (pp_category data)) ;;
   price_field <- lift (subscript "price" (pp_price data)) ;;
   price <- lift (py_float price_field) ;;
   stock <- lift (optional_stock (pp_stock data)) ;;
   db_update
     {| p_id := p_id product; p_name := name; p_category := category;
        p_price := price;
        p_image := get_default (pp_image data) (p_image product);
        p_seller_id := p_seller_id product;
        p_description := get_default (pp_description data) (p_description product);
        p_stock := get_default stock (p_stock product);
        p_origin := get_default (pp_origin data) (p_origin product) |} ;;;
   ret (jsonify [("success", PyBool true);
                 ("message", PyStr "Product updated successfully!")]))%handler.

(** [PUT /api/products/<int:product_id>], lines 291-325. *)
Definition api_update_product (product_id : Z) (data : product_payload)
  : M response :=
  try_except (api_update_product_body product_id data) (json_error 400).

Definition api_delete_product_body (product_id : Z) : M response :=
  (product <- get_or_404 product_id ;;
   let product_name := p_name product in
   db_delete product ;;;
   ret (jsonify [("success", PyBool true);
                 ("message",
                  PyStr ("Product " ++ dquote ++ product_name ++ dquote
                         ++ " deleted successfully!"))]))%handler.

(** [DELETE /api/products/<int:product_id>], lines 328-346. *)
Definition api_delete_product (product_id : Z) : M response :=
  try_except (api_delete_product_body product_id) (json_error 400).

(** ** Login, lines 106-119 *)

(** [User.query.filter_by(email=...).first()]. *)
Definition first_by_email (users : list User) (email : string) : option User :=
  find (fun u => String.eqb (u_email u) email) users.

Definition set_session_principal (u : User) : M unit :=
  fun w => (Ok tt, with_session (set_principal u (w_session w)) w).

Definition all_users : M (list User) :=
  fun w => (Ok (w_users w), w).

(** [login] for a request carrying the form fields [email] and [password];
    the final [render_template] is reached from the failed check and from a
    form that did not validate alike. *)
Definition login (email password : string) : M response :=
  (if validate_on_submit email password then
     users <- all_users ;;
     match first_by_email users email with
     | Some user =>
         if check_password_hash (u_password user) password then
           set_session_principal user ;;;
           flash "Welcome back!" ;;;
           ret (Redirect "home")
         else
           flash "Invalid email or password." ;;;
           ret (LoginPage email password)
     | None =>
         flash "Invalid email or password." ;;;
         ret (LoginPage email password)
     end
   else ret (LoginPage email password))%handler.

End Application.

(** ** The JSON API as one table of routes *)

(** A request to one of the API routes that wrap their body in
    [try: ... except Exception as e:]. *)
Inductive api_request : Type :=
| PostProduct (data : product_payload)
| PutProduct (product_id : Z) (data : product_payload)
| DeleteProduct (product_id : Z)
| GetCart
| PostCart (data : cart_post)
| DeleteCartLine (product_id : Z).

(** The statements inside the [try] of the route. *)
Definition api_body (float_of_str : string -> option float)
    (rq : api_request) : M response :=
  match rq with
  | PostProduct data => api_add_product_body float_of_str data
  | PutProduct id data => api_update_product_body float_of_str id data
  | DeleteProduct id => api_delete_product_body id
  | GetCart => api_get_cart_body
  | PostCart data => api_add_to_cart_body data
  | DeleteCartLine id => api_remove_from_cart_body id
  end.

(** The view function of the route. *)
Definition api_route (float_of_str : string -> option float)
    (rq : api_request) : M response :=
  match rq with
  | PostProduct data => api_add_product float_of_str data
  | PutProduct id data => api_update_product float_of_str id data
  | DeleteProduct id => api_delete_product id
  | GetCart => api_get_cart
  | PostCart data => api_add_to_cart data
  | DeleteCartLine id => api_remove_from_cart id
  end.

(** ** All the routes that this development covers *)

Inductive request : Type :=
| AddToCart (product_id : Z) (form_quantity : option string)
| ViewCart
| RemoveFromCart (product_id : Z)
| Api (rq : api_request)
| Login (email password : string).

Section Serving.
Variable float_of_str : string -> option float.
Variable validate_on_submit : string -> string -> bool.
Variable check_password_hash : string -> string -> bool.

Definition serve (rq : request) : M response :=
  match rq with
  | AddToCart id form_quantity => add_to_cart id form_quantity
  | ViewCart => view_cart
  | RemoveFromCart id => remove_from_cart id
  | Api rq => api_route float_of_str rq
  | Login email password =>
      login validate_on_submit check_password_hash email password
  end.

(** The world after a sequence of requests of one session; an exception
    that leaves a handler ends that request only, and each request starts
    from the session as the cookie carried it. *)
Definition serve_all (rqs : list request) (w : world) : world :=
  fold_left (fun w rq => next_request (snd (serve rq w))) rqs w.

End Serving.

(** ** Vocabulary of the properties *)

(** Running a handler: what it returns and the world it leaves. *)
Definition eval {A} (m : M A) (w : world) : result A := fst (m w).
Definition exec {A} (m : M A) (w : world) : world := snd (m w).

(** A field of a JSON answer. *)
Definition field (k : string) (r : response) : option pyval :=
  match r with
  | Json _ (PyDict fs) => dict_get k fs
  | _ => None
  end.

(** An answer is success-shaped when it is a JSON object whose ["success"]
    is true. *)
Definition success_shaped (r : response) : Prop :=
  field "success" r = Some (PyBool true).

(** The lines stored under a key. *)
Definition lines_of_key (key : string) (c : dict cart_line) : dict cart_line :=
  filter (fun kv => String.eqb key (fst kv)) c.

(** The number of distinct product lines of a cart. *)
Definition distinct_lines (c : dict cart_line) : Z :=
  len (nodup string_dec (dict_keys c)).

(** The sum of the quantities of a cart whose quantities are integers. *)
Fixpoint quantity_sum (lines : list cart_line) : Z :=
  match lines with
  | [] => 0
  | line :: rest =>
      match l_quantity line with
      | PyInt z => z + quantity_sum rest
      | _ => quantity_sum rest
      end
  end.

(** Price times quantity of a line whose quantity is a number (an integer,
    a boolean or a float) that has a float value; [None] for every other
    quantity. *)
Definition amount_of (line : cart_line) : option float :=
  match as_number (l_quantity line) with
  | Some n =>
      match float_of_number n with
      | Ok q => Some (l_price line * q)%float
      | Raise _ => None
      end
  | None => None
  end.

Fixpoint amounts_of (lines : list cart_line) : option (list float) :=
  match lines with
  | [] => Some []
  | line :: rest =>
      match amount_of line, amounts_of rest with
      | Some x, Some xs => Some (x :: xs)
      | _, _ => None
      end
  end.

(** The sum of a sequence of amounts, added from the left starting at zero;
    the sum of no amount is the integer 0. *)
Definition float_total (xs : list float) : pyval :=
  match xs with
  | [] => PyInt 0
  | _ => PyFloat (fold_left PrimFloat.add xs 0%float)
  end.

(** A cart key resolves when it is the decimal text of the primary key of a
    row of the catalog. *)
Definition resolves (ps : list Product) (key : string) : bool :=
  match py_int_of_str key with
  | Ok id =>
      match query_get ps id with
      | Some _ => true
      | None => false
      end
  | Raise _ => false
  end.

Definition resolvable (ps : list Product) (c : dict cart_line) : dict cart_line :=
  filter (fun kv => resolves ps (fst kv)) c.

(** The entry [GET /api/cart] is expected to show for a stored line. *)
Definition expected_entry (kv : string * cart_line) (amount : float) : pyval :=
  PyDict [("id", match py_int_of_str (fst kv) with
                 | Ok id => PyInt id
                 | Raise _ => PyNone
                 end);
          ("name", PyStr (l_name (snd kv)));
          ("price", PyFloat (l_price (snd kv)));
          ("quantity", l_quantity (snd kv));
          ("subtotal", PyFloat amount);
          ("image", PyStr (l_image (snd kv)))].

Fixpoint expected_entries (lines : dict cart_line) (amounts : list float)
  : list pyval :=
  match lines, amounts with
  | kv :: lines', x :: amounts' =>
      expected_entry kv x :: expected_entries lines' amounts'
  | _, _ => []
  end.

(** Every key of the cart is the decimal text of an integer. *)
Definition decimal_keys (c : dict cart_line) : Prop :=
  Forall (fun kv => exists id, py_int_of_str (fst kv) = Ok id) c.

(** The interpreter converts between an integer and its decimal text up to
    this many digits, in either direction ([int], [str], the JSON reader
    and writer). *)
Definition int_max_str_digits : nat := 4300.

(** An integer whose decimal text is within the limit. *)
Definition int_within_limit (z : Z) : bool :=
  Z.abs z <? 10 ^ Z.of_nat int_max_str_digits.

(** A form field that is absent or whose text is within the limit, so that
    [int] reads it when [py_int_of_str] does. *)
Definition text_within_limit (field : option string) : bool :=
  match field with
  | Some s => Nat.leb (String.length s) int_max_str_digits
  | None => true
  end.

(** The same for a JSON value that may be a text. *)
Definition value_within_limit (v : option pyval) : bool :=
  match v with
  | Some (PyStr s) => Nat.leb (String.length s) int_max_str_digits
  | Some (PyInt z) => int_within_limit z
  | _ => true
  end.

(** Every key of the cart is the decimal text of an integer that the
    database can look up. *)
Definition readable_keys (c : dict cart_line) : Prop :=
  Forall (fun kv => exists id, py_int_of_str (fst kv) = Ok id
                               /\ sqlite_integer id = true) c.

(** Every key of the cart is [str(id)] for an integer [id] that the
    database can look up: the keys the add routes store for the products
    they find. *)
Definition storable_keys (c : dict cart_line) : Prop :=
  Forall (fun kv => exists id, fst kv = py_str_int id
                               /\ sqlite_integer id = true) c.

(** A stock the database can store, when one is given. *)
Definition storable_stock (stock : option Z) : bool :=
  match stock with
  | Some z => sqlite_integer z
  | None => true
  end.

(** What every cart stored by the handlers satisfies: its keys are distinct
    and each is the decimal text of an integer. *)
Definition cart_invariant (w : world) : Prop :=
  NoDup (dict_keys (cart_of w)) /\ decimal_keys (cart_of w).

(** What the two add routes do once the product is found and the shared
    cart statement has run: they store the cart and answer, or raise. *)
Definition added (product : Product) (w : world)
    (r : result (dict cart_line)) : result response * world :=
  match r with
  | Ok c =>
      (Ok (jsonify [("success", PyBool true);
                    ("message", added_message product);
                    ("cart_count", PyInt (len c))]),
       with_session (set_cart c (w_session w)) w)
  | Raise e => (Raise e, w)
  end.

(** ** Sample states on which the properties are exercised *)

Definition farmer : User :=
  {| u_id := 1; u_name := "Asha"; u_email := "asha@farm.example";
     u_password := "hash-of-secret"; u_role := "user" |}.

Definition world_with_user : world :=
  {| w_session := empty_session; w_products := seed []; w_users := [farmer] |}.

(** A stand-in for the password check: the hash of a password is the
    password behind a fixed prefix. *)
Definition sample_check (hash password : string) : bool :=
  String.eqb hash ("hash-of-" ++ password).

Definition any_form (email password : string) : bool := true.

(** No text is a float literal: enough where the price is sent as a JSON
    number. *)
Definition no_float_text (s : string) : option float := None.

(** A session whose cart holds five tomatoes, and one whose cart also holds
    a line for product 7, which the seeded catalog does not have. *)
Definition tomato_line (quantity : pyval) : cart_line :=
  {| l_id := 1; l_name := "Organic Tomatoes"; l_price := 3.99;
     l_quantity := quantity;
     l_image := "https://images.unsplash.com/photo-1546470427-e212d4d25323?w=400" |}.

Definition ghost_line : cart_line :=
  {| l_id := 7; l_name := "Pears"; l_price := 1.5; l_quantity := PyInt 2;
     l_image := "" |}.

Definition world_with_cart (c : dict cart_line) : world :=
  with_session (set_cart c empty_session) initial_world.

(** The quantity field of a form that holds the decimal text of [z]. *)
Definition quantity_text (z : Z) : option string := Some (py_str_int z).

Definition pears : Product :=
  {| p_id := 7; p_name := "Pears"; p_category := "Fruits"; p_price := 1.5;
     p_image := ""; p_seller_id := Some 1; p_description := "";
     p_stock := 0; p_origin := "" |}.

Definition apple_line (quantity : pyval) : cart_line :=
  {| l_id := 2; l_name := "Fresh Apples"; l_price := 2.49;
     l_quantity := quantity;
     l_image := "https://images.unsplash.com/photo-1568702846914-96b305d2aaeb?w=400" |}.



(** ** The remaining routes: registration, logout, pages, forum, catalog list *)

(** A row of the forum table.  [fp_created_at] is the reading of the clock
    when the row is inserted. *)
Record ForumPost : Type := {
  fp_id : Z;
  fp_title : string;
  fp_content : string;
  fp_user_id : Z;
  fp_created_at : Z
}.

(** The forum table beside the world of the cart and catalog handlers. *)
Record site : Type := {
  site_world : world;
  site_posts : list ForumPost
}.

(** What the remaining handlers return: an answer of the earlier kind, or a
    page rendered from the arguments the handler gives the template. *)
Inductive view : Type :=
| Answer (r : response)
| Page (template : string)
| RegisterPage (name email password : string)
| ForumPage (posts : list ForumPost)
| ShopPage (products : list Product)
| AdminPage (users : list User) (products : list Product).

Definition with_users (us : list User) (w : world) : world :=
  {| w_session := w_session w; w_products := w_products w; w_users := us |}.

(** The key a table gives its next row, by the rule of [next_id]. *)
Definition fresh_key (ids : list Z) : Z := 1 + fold_right Z.max 0 ids.

(** [session.clear()]. *)
Definition session_clear : M unit :=
  fun w => (Ok tt, with_session empty_session w).

(** ['user' in session], with the identifier stored there. *)
Definition session_user : M (option Z) :=
  fun w => (Ok (s_user (w_session w)), w).

Definition db_insert_user (u : User) : M unit :=
  fun w => (Ok tt, with_users (w_users w ++ [u]) w).

Definition redirect (endpoint : string) : M view :=
  ret (Answer (Redirect endpoint)).

Section Pages.

(** [form.validate_on_submit()] of [forms.RegisterForm], and werkzeug's
    [generate_password_hash], which draws a salt: the salt is an input. *)
Variable validate_register : string -> string -> string -> bool.
Variable generate_password_hash : string -> string -> string.

(** [/register], lines 87-102. *)
Definition register (name email password salt : string) : M view :=
  (if validate_register name email password then
     users <- all_users ;;
     match first_by_email users email with
     | Some existing_user =>
         flash "Email already registered. Please log in." ;;;
         redirect "login"
     | None =>
         let hashed := generate_password_hash salt password in
         db_insert_user
           {| u_id := fresh_key (map u_id users); u_name := name;
              u_email := email; u_password := hashed; u_role := "user" |} ;;;
         flash "Account created successfully!" ;;;
         redirect "login"
     end
   else ret (RegisterPage name email password))%handler.

End Pages.

(** [/logout], lines 123-127. *)
Definition logout : M view :=
  (session_clear ;;;
   flash "Logged out successfully." ;;;
   redirect "home")%handler.

(** [/profile], lines 132-137. *)
Definition profile : M view :=
  (user <- session_user ;;
   match user with
   | None =>
       flash "Please log in to view your profile." ;;;
       redirect "login"
   | Some _ => ret (Page "profile.html")
   end)%handler.

(** [/shop], lines 170-173. *)
Definition shop : M view :=
  (products <- all_products ;; ret (ShopPage products))%handler.

(** [/admin], lines 466-474. *)
Definition admin_dashboard : M view :=
  (user <- session_user ;;
   match user with
   | None =>
       flash "Please log in as admin." ;;;
       redirect "login"
   | Some _ =>
       users <- all_users ;;
       products <- all_products ;;
       ret (AdminPage users products)
   end)%handler.

(** Truth of a text in a condition: a value that is there and not empty. *)
Definition truthy (field : option string) : bool :=
  match field with
  | Some (String _ _) => true
  | _ => false
  end.

(** The object [get_products] builds for one row whose description, stock
    and origin are there (not NULL): the optional keys are added only for a
    description or an origin that is not empty. *)
Definition product_json (product : Product) : pyval :=
  PyDict
    ([("id", PyInt (p_id product));
      ("name", PyStr (p_name product));
      ("category", PyStr (p_category product));
      ("price", PyFloat (p_price product));
      ("image", PyStr (p_image product));
      ("seller_id", match p_seller_id product with
                    | Some id => PyInt id
                    | None => PyNone
                    end)]
     ++ (if truthy (Some (p_description product))
         then [("description", PyStr (p_description product))] else [])
     ++ [("stock", PyInt (p_stock product))]
     ++ (if truthy (Some (p_origin product))
         then [("origin", PyStr (p_origin product))] else []))%list.

Definition get_products_body : M response :=
  (products <- all_products ;;
   ret (Json 200 (PyList (map product_json products))))%handler.

(** [GET /api/products], lines 224-249. *)
Definition get_products : M response :=
  try_except get_products_body
    (fun e => ret (Json 500 (PyDict [("error", PyStr (exn_str e))]))).

(** *** The forum *)

Definition SM (A : Type) : Type := site -> result A * site.

(** A handler of the world, run inside the site. *)
Definition on_world {A} (m : M A) : SM A :=
  fun s =>
    (fst (m (site_world s)),
     {| site_world := snd (m (site_world s)); site_posts := site_posts s |}).

(** [/forum], lines 142-145. *)
Definition forum : SM view :=
  fun s => (Ok (ForumPage (site_posts s)), s).

Definition db_insert_post (post : ForumPost) (s : site) : site :=
  {| site_world := site_world s; site_posts := (site_posts s ++ [post])%list |}.

(** [/add_post], lines 148-165; [now] is the clock at the insertion. *)
Definition add_post (title content : option string) (now : Z) : SM view :=
  fun s =>
    match s_user (w_session (site_world s)) with
    | None =>
        on_world (flash "You must be logged in to post." ;;;
                  redirect "login")%handler s
    | Some user =>
        match title, content with
        | Some t, Some c =>
            if andb (truthy title) (truthy content) then
              on_world (flash "Post added successfully!" ;;;
                        redirect "forum")%handler
                (db_insert_post
                   {| fp_id := fresh_key (map fp_id (site_posts s));
                      fp_title := t; fp_content := c; fp_user_id := user;
                      fp_created_at := now |} s)
            else
              on_world (flash "Please enter a title and content." ;;;
                        redirect "forum")%handler s
        | _, _ =>
            on_world (flash "Please enter a title and content." ;;;
                      redirect "forum")%handler s
        end
    end.

(** *** Every route, and a session's run of requests *)

Inductive site_request : Type :=
| Core (rq : request)
| Register (name email password salt : string)
| Logout
| Profile
| Shop
| AdminDashboard
| GetProducts
| Forum
| AddPost (title content : option string) (now : Z).

(** The site the next request of the session starts in. *)
Definition site_next_request (s : site) : site :=
  {| site_world := next_request (site_world s); site_posts := site_posts s |}.

Definition answer (m : M response) : M view :=
  (r <- m ;; ret (Answer r))%handler.

Section Site.
Variable float_of_str : string -> option float.
Variable validate_on_submit : string -> string -> bool.
Variable check_password_hash : string -> string -> bool.
Variable validate_register : string -> string -> string -> bool.
Variable generate_password_hash : string -> string -> string.

Definition site_serve (rq : site_request) : SM view :=
  match rq with
  | Core rq =>
      on_world
        (answer (serve float_of_str validate_on_submit check_password_hash rq))
  | Register name email password salt =>
      on_world
        (register validate_register generate_password_hash
           name email password salt)
  | Logout => on_world logout
  | Profile => on_world profile
  | Shop => on_world shop
  | AdminDashboard => on_world admin_dashboard
  | GetProducts => on_world (answer get_products)
  | Forum => forum
  | AddPost title content now => add_post title content now
  end.

Definition site_serve_all (rqs : list site_request) (s : site) : site :=
  fold_left (fun s rq => site_next_request (snd (site_serve rq s))) rqs s.

End Site.

(** The application after start-up on an empty database. *)
Definition initial_site : site :=
  {| site_world := initial_world; site_posts := [] |}.

(** *** Vocabulary of the further properties *)


(** The three routes that write the product table. *)
Definition writes_products (rq : api_request) : bool :=
  match rq with
  | PostProduct _ | PutProduct _ _ | DeleteProduct _ => true
  | _ => false
  end.

(** The row [PUT /api/products/id] leaves for the row [old]: the three
    required fields are replaced, the others only when they were sent. *)
Definition updated_row (old : Product) (name category : string) (price : float)
    (data : product_payload) (stock : option Z) : Product :=
  {| p_id := p_id old; p_name := name; p_category := category;
     p_price := price;
     p_image := get_default (pp_image data) (p_image old);
     p_seller_id := p_seller_id old;
     p_description := get_default (pp_description data) (p_description old);
     p_stock := get_default stock (p_stock old);
     p_origin := get_default (pp_origin data) (p_origin old) |}.

(** The session names a stored user, with that user's name and role. *)
Definition principal_stored (w : world) : Prop :=
  forall uid, s_user (w_session w) = Some uid ->
    exists u, In u (w_users w) /\ u_id u = uid
              /\ s_name (w_session w) = Some (u_name u)
              /\ s_role (w_session w) = Some (u_role u).

(** What the routes keep true of the whole application, for requests whose
    product identifiers are integers. *)
Definition site_invariant (s : site) : Prop :=
  let w := site_world s in
  cart_invariant w
  /\ NoDup (map p_id (w_products w))
  /\ NoDup (map u_email (w_users w))
  /\ NoDup (map u_id (w_users w))
  /\ Forall (fun u => u_role u = "user") (w_users w)
  /\ principal_stored w
  /\ NoDup (map fp_id (site_posts s))
  /\ Forall (fun post => In (fp_user_id post) (map u_id (w_users w)))
       (site_posts s).

(** The same without the reading of the cart's keys: the keys of the cart
    are distinct, as those of any dictionary are. *)
Definition tables_invariant (s : site) : Prop :=
  let w := site_world s in
  NoDup (dict_keys (cart_of w))
  /\ NoDup (map p_id (w_products w))
  /\ NoDup (map u_email (w_users w))
  /\ NoDup (map u_id (w_users w))
  /\ Forall (fun u => u_role u = "user") (w_users w)
  /\ principal_stored w
  /\ NoDup (map fp_id (site_posts s))
  /\ Forall (fun post => In (fp_user_id post) (map u_id (w_users w)))
       (site_posts s).

(** Stand-ins for the registration form check and for the password hash
    that [sample_check] accepts. *)
Definition any_registration (name email password : string) : bool := true.

Definition sample_hash (salt password : string) : string :=
  "hash-of-" ++ password.

(** The fresh application with [farmer] stored and logged in. *)
Definition site_with_farmer : site :=
  {| site_world :=
       with_session (set_principal farmer empty_session) world_with_user;
     site_posts := [] |}.

(** * Properties *)

Local Open Scope list_scope.

(** Unfold the monad of a handler down to the results it depends on. *)
Ltac run_handler :=
  unfold try_except, json_error, bind, lift, ret, raise, get_or_404,
    session_get_cart, session_set_cart, all_products, subscript, eval, exec;
  cbn [fst snd cp_product_id cp_quantity].

(** Use a known intermediate result and go on to the next statement. *)
Ltac known H := rewrite H; cbn [fst snd cp_product_id cp_quantity].

(** ** Integers and their decimal text *)

Lemma to_int_not_nil (z : Z) :
  Z.to_int z <> Decimal.Pos Decimal.Nil /\ Z.to_int z <> Decimal.Neg Decimal.Nil.
Proof.
  destruct z as [|p|p]; simpl; split; try discriminate;
    intros [= H]; now apply (Unsigned.to_uint_nonnil p).
Qed.

Lemma py_int_of_str_int (z : Z) : py_int_of_str (py_str_int z) = Ok z.
Proof.
  unfold py_int_of_str, py_str_int.
  destruct (to_int_not_nil z) as [Hp Hn].
  rewrite (NilZero.isi _ Hp Hn).
  now rewrite DecimalZ.of_to.
Qed.

Lemma py_str_int_inj (x y : Z) : py_str_int x = py_str_int y -> x = y.
Proof.
  intros H.
  assert (E : py_int_of_str (py_str_int x) = py_int_of_str (py_str_int y))
    by now rewrite H.
  rewrite !py_int_of_str_int in E.
  now injection E.
Qed.

(** ** Dictionaries *)

Section DictFacts.
Context {V : Type}.
Implicit Types (d : dict V) (k : string) (v : V).

Lemma dict_get_none_iff k d : dict_get k d = None <-> ~ In k (dict_keys d).
Proof.
  induction d as [|[k' v'] rest IH]; simpl.
  - tauto.
  - destruct (String.eqb_spec k k') as [->|Hne].
    + split; [discriminate | intros H; exfalso; apply H; now left].
    + rewrite IH. split; [intros H [E|E]; [congruence | tauto] | tauto].
Qed.

Lemma dict_get_set_same k v d : dict_get k (dict_set k v d) = Some v.
Proof.
  induction d as [|[k' v'] rest IH]; simpl.
  - now rewrite String.eqb_refl.
  - destruct (String.eqb_spec k k') as [->|Hne]; simpl.
    + now rewrite String.eqb_refl.
    + destruct (String.eqb_spec k k'); [contradiction | exact IH].
Qed.

Lemma dict_get_set_other k k' v d :
  k <> k' -> dict_get k' (dict_set k v d) = dict_get k' d.
Proof.
  intros Hne. induction d as [|[k0 v0] rest IH]; simpl.
  - destruct (String.eqb_spec k' k); [congruence | reflexivity].
  - destruct (String.eqb_spec k k0) as [->|Hk]; simpl.
    + destruct (String.eqb_spec k' k0); [congruence | reflexivity].
    + destruct (String.eqb_spec k' k0); [reflexivity | exact IH].
Qed.

(** Assigning to a key that is present keeps the keys and their order. *)
Lemma dict_set_present_keys k v v0 d :
  dict_get k d = Some v0 -> dict_keys (dict_set k v d) = dict_keys d.
Proof.
  induction d as [|[k' v'] rest IH]; simpl; [discriminate|].
  destruct (String.eqb_spec k k') as [->|Hne]; simpl; intros H.
  - reflexivity.
  - f_equal. now apply IH.
Qed.

(** Assigning to an absent key appends it. *)
Lemma dict_set_absent k v d :
  dict_get k d = None -> dict_set k v d = (d ++ [(k, v)])%list.
Proof.
  induction d as [|[k' v'] rest IH]; simpl; [reflexivity|].
  destruct (String.eqb_spec k k') as [->|Hne]; [discriminate|].
  intros H. f_equal. now apply IH.
Qed.

Lemma dict_del_keys_incl k d x : In x (dict_keys (dict_del k d)) -> In x (dict_keys d).
Proof.
  induction d as [|[k' v'] rest IH]; simpl; [tauto|].
  destruct (String.eqb_spec k k') as [->|Hne]; simpl; [tauto|].
  intros [E|E]; [now left | right; now apply IH].
Qed.

Lemma dict_del_NoDup k d : NoDup (dict_keys d) -> NoDup (dict_keys (dict_del k d)).
Proof.
  induction d as [|[k' v'] rest IH]; simpl; [trivial|].
  intros H. inversion H as [|? ? Hnin Hnd]; subst.
  destruct (String.eqb_spec k k') as [->|Hne]; simpl; [assumption|].
  constructor; [|now apply IH].
  intros Hin. apply Hnin. eapply dict_del_keys_incl; eassumption.
Qed.

Lemma dict_set_NoDup k v d : NoDup (dict_keys d) -> NoDup (dict_keys (dict_set k v d)).
Proof.
  intros H. destruct (dict_get k d) as [v0|] eqn:E.
  - now rewrite (dict_set_present_keys _ _ _ _ E).
  - rewrite (dict_set_absent _ _ _ E). unfold dict_keys. rewrite map_app. simpl.
    apply NoDup_app; [exact H | repeat constructor; simpl; tauto | ].
    intros x Hx [<-|[]]. now apply dict_get_none_iff in E.
Qed.

End DictFacts.

Section DictMore.
Context {V : Type}.
Implicit Types (d : dict V) (k : string) (v : V).

Lemma dict_get_del_other k k' d :
  k <> k' -> dict_get k' (dict_del k d) = dict_get k' d.
Proof.
  intros Hne. induction d as [|[k0 v0] rest IH]; simpl; [reflexivity|].
  destruct (String.eqb_spec k k0) as [->|Hk]; simpl.
  - destruct (String.eqb_spec k' k0); [congruence | reflexivity].
  - destruct (String.eqb_spec k' k0); [reflexivity | exact IH].
Qed.

Lemma dict_get_del_same k d :
  NoDup (dict_keys d) -> dict_get k (dict_del k d) = None.
Proof.
  induction d as [|[k0 v0] rest IH]; simpl; [reflexivity|].
  intros H. inversion H as [|? ? Hnin Hnd]; subst.
  destruct (String.eqb_spec k k0) as [->|Hk]; simpl.
  - now apply dict_get_none_iff.
  - destruct (String.eqb_spec k k0); [contradiction | now apply IH].
Qed.

Lemma dict_del_length k v d :
  dict_get k d = Some v -> len (dict_del k d) = len d - 1.
Proof.
  unfold len.
  induction d as [|[k0 v0] rest IH]; simpl length; [discriminate|].
  simpl dict_get. simpl dict_del.
  destruct (String.eqb_spec k k0) as [->|Hk]; intros H.
  - lia.
  - specialize (IH H). simpl length. lia.
Qed.

Lemma dict_del_app_last k v d :
  dict_get k d = None -> dict_del k (d ++ [(k, v)]) = d.
Proof.
  induction d as [|[k0 v0] rest IH]; simpl.
  - now rewrite String.eqb_refl.
  - destruct (String.eqb_spec k k0); [discriminate|].
    intros H. f_equal. now apply IH.
Qed.


End DictMore.

(** ** The session between two requests *)

Section ReloadFacts.
Context {V : Type}.
Implicit Types (d : dict V) (k : string).

Lemma insert_by_key_perm (kv : string * V) d :
  Permutation (insert_by_key kv d) (kv :: d).
Proof.
  induction d as [|kv' rest IH]; simpl; [reflexivity|].
  destruct (String.leb (fst kv) (fst kv')); [reflexivity|].
  rewrite IH. apply perm_swap.
Qed.

(** The cookie rearranges the lines and loses none. *)
Lemma sorted_by_key_perm d : Permutation (sorted_by_key d) d.
Proof.
  induction d as [|kv rest IH]; simpl; [reflexivity|].
  rewrite insert_by_key_perm. now constructor.
Qed.

Lemma perm_keys_NoDup d d' :
  Permutation d d' -> NoDup (dict_keys d) -> NoDup (dict_keys d').
Proof.
  intros Hp. apply Permutation_NoDup. now apply Permutation_map.
Qed.

(** What a key is bound to does not depend on the order of the lines. *)
Lemma dict_get_perm k d d' :
  Permutation d d' -> NoDup (dict_keys d) -> dict_get k d = dict_get k d'.
Proof.
  induction 1 as [|[k0 v0] l l' Hp IH|[k1 v1] [k2 v2] l|l l' l'' H1 IH1 H2 IH2];
    intros Hnd.
  - reflexivity.
  - simpl. destruct (String.eqb k k0); [reflexivity|].
    apply IH. now inversion Hnd.
  - simpl. destruct (String.eqb_spec k k2) as [->|]; [|reflexivity].
    destruct (String.eqb_spec k2 k1) as [->|]; [|reflexivity].
    exfalso. inversion Hnd as [|? ? Hnin _]; subst. apply Hnin. now left.
  - rewrite IH1 by exact Hnd. apply IH2. exact (perm_keys_NoDup _ _ H1 Hnd).
Qed.

Lemma sorted_keys_NoDup d :
  NoDup (dict_keys d) -> NoDup (dict_keys (sorted_by_key d)).
Proof.
  apply perm_keys_NoDup. symmetry. apply sorted_by_key_perm.
Qed.

Lemma sorted_get k d :
  NoDup (dict_keys d) -> dict_get k (sorted_by_key d) = dict_get k d.
Proof.
  intros Hnd. symmetry. apply dict_get_perm; [|exact Hnd].
  symmetry. apply sorted_by_key_perm.
Qed.


End ReloadFacts.

Lemma cart_of_next_request (w : world) :
  cart_of (next_request w) = sorted_by_key (cart_of w).
Proof.
  unfold next_request, cart_of.
  destruct (s_cart (w_session w)) as [c|] eqn:E; [reflexivity|].
  now rewrite E.
Qed.

(** The cookie carries the principal and the queued messages as they are,
    and the tables are not in it. *)
Lemma next_request_keeps (w : world) :
  w_products (next_request w) = w_products w
  /\ w_users (next_request w) = w_users w
  /\ s_user (w_session (next_request w)) = s_user (w_session w)
  /\ s_name (w_session (next_request w)) = s_name (w_session w)
  /\ s_role (w_session (next_request w)) = s_role (w_session w)
  /\ s_flashes (w_session (next_request w)) = s_flashes (w_session w).
Proof.
  unfold next_request. destruct (s_cart (w_session w)); repeat split; reflexivity.
Qed.

Lemma next_request_with_products (ps : list Product) (w : world) :
  next_request (with_products ps w) = with_products ps (next_request w).
Proof.
  unfold next_request. cbn [w_session with_products].
  now destruct (s_cart (w_session w)).
Qed.

(** ** Looking up a row *)

(** A row that is found has the key asked for, which is an integer the
    database can look up. *)
Lemma query_get_some (ps : list Product) (id : Z) (p : Product) :
  query_get ps id = Some p ->
  In p ps /\ p_id p = id /\ sqlite_integer id = true.
Proof.
  unfold query_get. destruct (sqlite_integer id); [|discriminate].
  intros H. apply find_some in H as [Hin H].
  repeat split; [assumption | now apply Z.eqb_eq].
Qed.

Lemma query_get_none (ps : list Product) (id : Z) :
  ~ In id (map p_id ps) -> query_get ps id = None.
Proof.
  unfold query_get. destruct (sqlite_integer id); [|reflexivity].
  induction ps as [|p rest IH]; simpl; [reflexivity|].
  intros H. destruct (Z.eqb_spec (p_id p) id) as [E|E]; [tauto|].
  apply IH. tauto.
Qed.

Lemma query_get_app (ps : list Product) (row : Product) (id : Z) :
  query_get (ps ++ [row]) id
  = match query_get ps id with
    | Some p => Some p
    | None => if andb (sqlite_integer id) (p_id row =? id)
              then Some row else None
    end.
Proof.
  unfold query_get. destruct (sqlite_integer id); [|reflexivity].
  cbn [andb].
  induction ps as [|p rest IH]; simpl; [reflexivity|].
  destruct (p_id p =? id); [reflexivity | exact IH].
Qed.

(** Replacing the rows of key [k] by a row of that key. *)
Lemma query_get_replace (ps : list Product) (row : Product) (k id : Z) :
  p_id row = k ->
  query_get (map (fun q => if p_id q =? k then row else q) ps) id
  = if k =? id
    then option_map (fun _ => row) (query_get ps id)
    else query_get ps id.
Proof.
  intros <-. unfold query_get.
  destruct (sqlite_integer id); [|now destruct (p_id row =? id)].
  induction ps as [|p rest IH]; simpl.
  - now destruct (p_id row =? id).
  - destruct (Z.eqb_spec (p_id p) (p_id row)) as [E1|E1]; rewrite IH;
      destruct (Z.eqb_spec (p_id row) id) as [E2|E2];
      destruct (Z.eqb_spec (p_id p) id) as [E3|E3];
      try reflexivity; congruence.
Qed.

Lemma query_get_delete (ps : list Product) (gone id : Z) :
  query_get (filter (fun q => negb (p_id q =? gone)) ps) id
  = if gone =? id then None else query_get ps id.
Proof.
  unfold query_get.
  destruct (sqlite_integer id); [|now destruct (gone =? id)].
  induction ps as [|p rest IH]; simpl.
  - now destruct (gone =? id).
  - destruct (Z.eqb_spec (p_id p) gone) as [E|E]; simpl.
    + rewrite IH, E. destruct (Z.eqb_spec gone id); reflexivity.
    + rewrite IH. destruct (Z.eqb_spec gone id) as [E'|E'].
      * rewrite <- E'. now destruct (Z.eqb_spec (p_id p) gone).
      * reflexivity.
Qed.

(** What [get_or_404] does with a key that no row has. *)
Lemma get_or_404_missing (w : world) (id : Z) :
  query_get (w_products w) id = None ->
  exists e, get_or_404 id w = (Raise e, w).
Proof.
  intros H. unfold get_or_404. rewrite H.
  destruct (sqlite_integer id); eexists; reflexivity.
Qed.

(** ** Removing a product that is not in the cart *)

(** C1, on the seeded application with an empty session: product 1 is not
    in the cart, yet [/remove_from_cart/1] raises instead of answering, and
    [DELETE /api/cart/remove/1] answers 404 with ["success"] false. *)
Lemma remove_absent_not_success :
  dict_get (py_str_int 1) (cart_of initial_world) = None
  /\ remove_from_cart 1 initial_world
     = (Raise (Exn UnboundLocalError
                 "cannot access local variable 'product_name' where it is not associated with a value"),
        initial_world)
  /\ api_remove_from_cart 1 initial_world
     = (Ok (Json 404 (PyDict [("success", PyBool false);
                              ("error", PyStr "Product not found in cart")])),
        initial_world)
  /\ ~ success_shaped
         (Json 404 (PyDict [("success", PyBool false);
                            ("error", PyStr "Product not found in cart")])).
Proof.
  repeat split; try reflexivity.
  unfold success_shaped; simpl. discriminate.
Qed.

(** C1 as the handlers have it: when product [p] is not in the session
    cart, [DELETE /api/cart/remove/p] returns, without raising, the 404
    answer whose ["success"] is false and whose ["error"] is the fixed text
    "Product not found in cart"; and on both remove routes the world, hence
    the session cart, is afterwards what it was. *)
Theorem remove_absent_keeps_cart (w : world) (p : Z) :
  dict_get (py_str_int p) (cart_of w) = None ->
  api_remove_from_cart p w
  = (Ok (Json 404 (PyDict [("success", PyBool false);
                           ("error", PyStr "Product not found in cart")])), w)
  /\ exec (remove_from_cart p) w = w.
Proof.
  intros Habs.
  unfold api_remove_from_cart, api_remove_from_cart_body, remove_from_cart.
  run_handler. rewrite Habs. split; reflexivity.
Qed.

Lemma remove_absent_keeps_cart_witness :
  dict_get (py_str_int 7) (cart_of initial_world) = None
  /\ api_remove_from_cart 7 initial_world
     = (Ok (Json 404 (PyDict [("success", PyBool false);
                              ("error", PyStr "Product not found in cart")])),
        initial_world)
  /\ exec (remove_from_cart 7) initial_world = initial_world.
Proof.
  split; [reflexivity | apply (remove_absent_keeps_cart initial_world 7); reflexivity].
Defined.

(** ** Products that are not in the catalog *)

(** C5, on the seeded application with an empty session.  No row has the
    key 2^63, which is not an integer the database can look up: both add
    routes fail with the driver's [OverflowError], not with [NotFound].  No
    row has the key 999 either, and [POST /api/cart] for it answers with
    status 400, not with a 404: the [NotFound] that [get_or_404] raised
    reaches the client as the text of a generic failure. *)
Lemma add_missing_product_not_always_not_found :
  let post id := {| cp_product_id := Some id; cp_quantity := Some (PyInt 2) |} in
  (query_get (w_products initial_world) (2 ^ 63) = None
   /\ add_to_cart (2 ^ 63) (Some "2") initial_world
      = (Raise (Exn OverflowError
                  "Python int too large to convert to SQLite INTEGER"),
         initial_world)
   /\ api_add_to_cart (post (2 ^ 63)) initial_world
      = (Ok (Json 400
               (PyDict [("success", PyBool false);
                        ("error",
                         PyStr "Python int too large to convert to SQLite INTEGER")])),
         initial_world))
  /\ (query_get (w_products initial_world) 999 = None
      /\ api_add_to_cart (post 999) initial_world
         = (Ok (Json 400
                  (PyDict [("success", PyBool false);
                           ("error",
                            PyStr "404 Not Found: The requested URL was not found on the server. If you entered the URL manually please check your spelling and try again.")])),
            initial_world)
      /\ (forall body,
            eval (api_add_to_cart (post 999)) initial_world
            <> Ok (Json 404 body))).
Proof.
  repeat split; try (vm_compute; reflexivity).
  intros body. vm_compute. discriminate.
Qed.

(** C5 as the handlers have it: let [p] be an integer the database can look
    up and that no row of the catalog has as key.  On [/add_to_cart/p], for
    a quantity field that is absent or that [int] reads, the [NotFound] of
    [get_or_404] leaves the handler, and Flask answers 404.  On
    [POST /api/cart], whatever the quantity, the body raises the same
    exception, which the handler catches: the answer has status 400,
    ["success"] false and the 404 text as ["error"].  Both leave the world,
    hence the session cart, as it was; and whatever the quantity field
    [any_field] holds, [/add_to_cart/p] raises and leaves the world as it
    was. *)
Theorem add_missing_product_not_found
    (w : world) (p : Z) (form_quantity : option string) (q : Z)
    (quantity : option pyval) (any_field : option string) :
  sqlite_integer p = true ->
  query_get (w_products w) p = None ->
  text_within_limit form_quantity = true ->
  py_int (form_get_quantity form_quantity) = Ok q ->
  add_to_cart p form_quantity w = (Raise not_found, w)
  /\ api_add_to_cart_body
       {| cp_product_id := Some p; cp_quantity := quantity |} w
     = (Raise not_found, w)
  /\ api_add_to_cart {| cp_product_id := Some p; cp_quantity := quantity |} w
     = (Ok (Json 400 (PyDict [("success", PyBool false);
                              ("error", PyStr (exn_str not_found))])), w)
  /\ exists e, add_to_cart p any_field w = (Raise e, w).
Proof.
  intros Hrange Hmiss _ Hq.
  unfold api_add_to_cart, api_add_to_cart_body, add_to_cart.
  run_handler. known Hq. rewrite Hmiss, Hrange. cbn [fst snd].
  repeat split; try reflexivity.
  destruct (py_int (form_get_quantity any_field)) as [q'|e]; cbn [fst snd].
  - now exists not_found.
  - now exists e.
Qed.

Lemma add_missing_product_not_found_witness :
  let post := {| cp_product_id := Some 999; cp_quantity := Some (PyInt 2) |} in
  query_get (w_products initial_world) 999 = None
  /\ py_int (form_get_quantity (Some "2")) = Ok 2
  /\ add_to_cart 999 (Some "2") initial_world = (Raise not_found, initial_world)
  /\ api_add_to_cart_body post initial_world = (Raise not_found, initial_world)
  /\ api_add_to_cart post initial_world
     = (Ok (Json 400 (PyDict [("success", PyBool false);
                              ("error", PyStr (exn_str not_found))])),
        initial_world)
  /\ exists e, add_to_cart 999 (Some "many") initial_world = (Raise e, initial_world).
Proof.
  intros post. split; [reflexivity | split; [reflexivity|]].
  apply (add_missing_product_not_found initial_world 999 (Some "2") 2
           (Some (PyInt 2)) (Some "many")); reflexivity.
Defined.




(** ** Login failures *)

Section LoginFacts.
Variable validate_on_submit : string -> string -> bool.
Variable check_password_hash : string -> string -> bool.

(** A failed check of a submitted form, whatever its cause, queues the one
    message and shows the form again; the session is otherwise untouched. *)
Lemma login_wrong_password (w : world) (email password : string) (u : User) :
  validate_on_submit email password = true ->
  first_by_email (w_users w) email = Some u ->
  check_password_hash (u_password u) password = false ->
  login validate_on_submit check_password_hash email password w
  = (Ok (LoginPage email password),
     with_session (add_flash "Invalid email or password." (w_session w)) w).
Proof.
  intros Hv Hu Hc. unfold login. rewrite Hv.
  unfold bind, all_users, flash, ret. simpl. rewrite Hu, Hc. reflexivity.
Qed.

Lemma login_unknown_email (w : world) (email password : string) :
  validate_on_submit email password = true ->
  first_by_email (w_users w) email = None ->
  login validate_on_submit check_password_hash email password w
  = (Ok (LoginPage email password),
     with_session (add_flash "Invalid email or password." (w_session w)) w).
Proof.
  intros Hv Hu. unfold login. rewrite Hv.
  unfold bind, all_users, flash, ret. simpl. rewrite Hu. reflexivity.
Qed.

End LoginFacts.

(** C9: for a stored user, a submitted login with that user's email and a
    password the hash check rejects, and a submitted login with an email no
    user has, leave the same world (the same session, with the same single
    message "Invalid email or password." queued) and both show the login
    page again, each with the fields the client itself sent. *)
Theorem login_failures_alike
    (validate_on_submit check_password_hash : string -> string -> bool)
    (w : world) (u : User) (email1 password1 email2 password2 : string) :
  validate_on_submit email1 password1 = true ->
  validate_on_submit email2 password2 = true ->
  first_by_email (w_users w) email1 = Some u ->
  check_password_hash (u_password u) password1 = false ->
  first_by_email (w_users w) email2 = None ->
  let known := login validate_on_submit check_password_hash email1 password1 in
  let unknown := login validate_on_submit check_password_hash email2 password2 in
  exec known w = exec unknown w
  /\ s_flashes (w_session (exec known w))
     = (s_flashes (w_session w) ++ ["Invalid email or password."])%list
  /\ eval known w = Ok (LoginPage email1 password1)
  /\ eval unknown w = Ok (LoginPage email2 password2).
Proof.
  intros Hv1 Hv2 Hu Hc Hn known unknown. subst known unknown.
  unfold exec, eval.
  rewrite (login_wrong_password _ _ w email1 password1 u Hv1 Hu Hc).
  rewrite (login_unknown_email _ check_password_hash w email2 password2 Hv2 Hn).
  simpl. repeat split; reflexivity.
Qed.

Lemma login_failures_alike_witness :
  let known := login any_form sample_check "asha@farm.example" "guess" in
  let unknown := login any_form sample_check "nobody@farm.example" "guess" in
  first_by_email (w_users world_with_user) "asha@farm.example" = Some farmer
  /\ sample_check (u_password farmer) "guess" = false
  /\ first_by_email (w_users world_with_user) "nobody@farm.example" = None
  /\ exec known world_with_user = exec unknown world_with_user
  /\ s_flashes (w_session (exec known world_with_user))
     = ["Invalid email or password."]
  /\ eval known world_with_user = Ok (LoginPage "asha@farm.example" "guess")
  /\ eval unknown world_with_user = Ok (LoginPage "nobody@farm.example" "guess").
Proof.
  intros known unknown.
  split; [reflexivity | split; [reflexivity | split; [reflexivity|]]].
  apply (login_failures_alike any_form sample_check world_with_user farmer
           "asha@farm.example" "guess" "nobody@farm.example" "guess");
    reflexivity.
Defined.

(** ** Reading the cart *)

Lemma api_get_cart_frame (w : world) : exec api_get_cart w = w.
Proof.
  unfold api_get_cart, api_get_cart_body. run_handler.
  destruct (api_get_cart_loop _ _ _ _); reflexivity.
Qed.

Lemma view_cart_frame (w : world) : exec view_cart w = w.
Proof.
  unfold view_cart. run_handler.
  destruct (py_sum _); reflexivity.
Qed.

(** C10: [GET /api/cart] and [/cart] leave the world as it was, whatever the
    cart and the catalog, so the session cart keeps every line, also one
    whose product does not resolve; a listing made later, over any catalog
    [ps], is the listing the untouched session gives. *)
Theorem cart_reads_keep_session (w : world) (ps : list Product) :
  exec api_get_cart w = w
  /\ exec view_cart w = w
  /\ cart_of (exec api_get_cart w) = cart_of w
  /\ cart_of (exec view_cart w) = cart_of w
  /\ api_get_cart (with_products ps (exec api_get_cart w))
     = api_get_cart (with_products ps w)
  /\ api_get_cart (with_products ps (exec view_cart w))
     = api_get_cart (with_products ps w).
Proof.
  rewrite api_get_cart_frame, view_cart_frame. repeat split; reflexivity.
Qed.

(** The line of product 7 is missing from the listing while the catalog has
    no such row, stays in the session, and is listed once the row exists. *)
Example dropped_line_reappears :
  let w := world_with_cart [("1", tomato_line (PyInt 5)); ("7", ghost_line)] in
  let later := with_products (w_products w ++ [pears]) (exec api_get_cart w) in
  field "items" (match eval api_get_cart w with Ok r => r | Raise _ => Redirect "" end)
  = Some (PyList [expected_entry ("1", tomato_line (PyInt 5)) (3.99 * 5)%float])
  /\ cart_of (exec api_get_cart w) = cart_of w
  /\ field "items" (match eval api_get_cart later with Ok r => r | Raise _ => Redirect "" end)
     = Some (PyList [expected_entry ("1", tomato_line (PyInt 5)) (3.99 * 5)%float;
                     expected_entry ("7", ghost_line) (1.5 * 2)%float]).
Proof.
  repeat split; vm_compute; reflexivity.
Qed.

(** ** Quantities that are not numbers *)

(** C3, at three requests on the seeded application.  [POST /add_to_cart/1]
    with the quantity field "abc": [int] raises outside any [try], so the
    handler raises instead of answering.  [POST /api/cart] with
    [{"product_id": 1, "quantity": "abc"}]: the quantity is stored as the
    text it was, and the answer is a success; with that line in the cart,
    [/cart] raises, and [GET /api/cart] answers 400.
    [GET /remove_from_cart/1] on the empty cart: the handler raises instead
    of answering. *)
Theorem cart_faults_on_malformed_input :
  let text_line := world_with_cart [("1", tomato_line (PyStr "abc"))] in
  let type_error :=
    Exn TypeError "can't multiply sequence by non-int of type 'float'" in
  add_to_cart 1 (Some "abc") initial_world
  = (Raise (Exn ValueError "invalid literal for int() with base 10: 'abc'"),
     initial_world)
  /\ api_add_to_cart
       {| cp_product_id := Some 1; cp_quantity := Some (PyStr "abc") |}
       initial_world
     = (Ok (Json 200 (PyDict [("success", PyBool true);
                              ("message", PyStr "Organic Tomatoes added to cart!");
                              ("cart_count", PyInt 1)])),
        text_line)
  /\ view_cart text_line = (Raise type_error, text_line)
  /\ api_get_cart text_line = (Ok (Json 400 (error_body type_error)), text_line)
  /\ exn_cls (match eval (remove_from_cart 1) initial_world with
              | Ok _ => not_found
              | Raise e => e
              end) = UnboundLocalError.
Proof.
  repeat split; vm_compute; reflexivity.
Qed.

(** ** What an API handler answers when its body raises *)

(** C6, on the seeded application: [POST /api/cart] with the empty object
    raises [KeyError('product_id')], [DELETE /api/products/999] raises the
    404 exception, [POST /api/products] with the price "cheap" raises the
    [ValueError] of [float]; in each answer ["error"] is the text of that
    very exception. *)
Lemma error_is_exception_text :
  let no_id := {| cp_product_id := None; cp_quantity := None |} in
  let cheap :=
    {| pp_name := Some "Pears"; pp_category := Some "Fruits";
       pp_price := Some (PyStr "cheap"); pp_image := None;
       pp_description := None; pp_stock := None; pp_origin := None |} in
  let key_error := Exn KeyError "'product_id'" in
  let value_error :=
    Exn ValueError "could not convert string to float: 'cheap'" in
  (eval (api_add_to_cart_body no_id) initial_world = Raise key_error
   /\ field "error" (Json 400 (error_body key_error))
      = Some (PyStr (exn_str key_error))
   /\ eval (api_add_to_cart no_id) initial_world
      = Ok (Json 400 (PyDict [("success", PyBool false);
                              ("error", PyStr "'product_id'")])))
  /\ (eval (api_delete_product_body 999) initial_world = Raise not_found
      /\ eval (api_delete_product 999) initial_world
         = Ok (Json 400 (PyDict [("success", PyBool false);
                                 ("error", PyStr (exn_str not_found))])))
  /\ (eval (api_add_product_body no_float_text cheap) initial_world
      = Raise value_error
      /\ eval (api_add_product no_float_text cheap) initial_world
         = Ok (Json 400
                 (PyDict [("success", PyBool false);
                          ("error",
                           PyStr "could not convert string to float: 'cheap'")]))).
Proof.
  repeat split; vm_compute; reflexivity.
Qed.

(** C6 as the handlers have it: whenever the body of an API route (the
    three product routes and the three cart routes) raises an exception [e],
    the route answers status 400 with the JSON object whose only fields are
    ["success"], false, and ["error"], the text [str(e)] of that exception,
    and it leaves the world as the body left it. *)
Theorem api_error_is_exception_text
    (float_of_str : string -> option float) (rq : api_request)
    (w w' : world) (e : exn) :
  api_body float_of_str rq w = (Raise e, w') ->
  api_route float_of_str rq w
  = (Ok (Json 400 (PyDict [("success", PyBool false);
                           ("error", PyStr (exn_str e))])), w').
Proof.
  destruct rq; simpl;
    unfold api_add_product, api_update_product, api_delete_product,
      api_get_cart, api_add_to_cart, api_remove_from_cart, try_except;
    intros ->; reflexivity.
Qed.

Lemma api_error_is_exception_text_witness :
  let rq := PostCart {| cp_product_id := None; cp_quantity := None |} in
  api_body no_float_text rq initial_world
  = (Raise (Exn KeyError "'product_id'"), initial_world)
  /\ api_route no_float_text rq initial_world
     = (Ok (Json 400 (PyDict [("success", PyBool false);
                              ("error", PyStr "'product_id'")])),
        initial_world).
Proof.
  intros rq. split; [reflexivity|].
  apply (api_error_is_exception_text no_float_text rq initial_world
           initial_world (Exn KeyError "'product_id'")).
  reflexivity.
Defined.

(** ** Amounts and totals *)

Lemma py_float_of_zero : py_float_of_int 0 = Ok 0%float.
Proof. vm_compute. reflexivity. Qed.

Lemma py_mul_amount (line : cart_line) (x : float) :
  amount_of line = Some x ->
  py_mul (PyFloat (l_price line)) (l_quantity line) = Ok (PyFloat x).
Proof.
  unfold amount_of, py_mul. cbn [as_number].
  destruct (as_number (l_quantity line)) as [n|]; [|discriminate].
  destruct (float_of_number n) as [q|] eqn:Hq; [|discriminate].
  intros [= <-]. unfold num_mul. cbn [float_of_number rbind].
  rewrite Hq. now destruct n.
Qed.

(** A quantity without a float value makes the product raise. *)
Lemma py_mul_no_amount (line : cart_line) :
  amount_of line = None ->
  exists e, py_mul (PyFloat (l_price line)) (l_quantity line) = Raise e.
Proof.
  unfold amount_of, py_mul. cbn [as_number].
  destruct (as_number (l_quantity line)) as [n|].
  - destruct (float_of_number n) as [q|e] eqn:Hq; [discriminate|].
    intros _. exists e. unfold num_mul. cbn [float_of_number rbind].
    rewrite Hq. now destruct n.
  - intros _. destruct (l_quantity line); eexists; reflexivity.
Qed.

Lemma add_to_float (a x : float) :
  py_add (PyFloat a) (PyFloat x) = Ok (PyFloat (a + x))
  /\ py_iadd (PyFloat a) (PyFloat x) = Ok (PyFloat (a + x)).
Proof. split; reflexivity. Qed.

Lemma add_to_zero (x : float) :
  py_add (PyInt 0) (PyFloat x) = Ok (PyFloat (0 + x))
  /\ py_iadd (PyInt 0) (PyFloat x) = Ok (PyFloat (0 + x)).
Proof.
  unfold py_add, py_iadd, as_number, num_add, float_of_number.
  rewrite py_float_of_zero. split; reflexivity.
Qed.

Lemma amounts_of_cons (line : cart_line) (rest : list cart_line) (xs : list float) :
  amounts_of (line :: rest) = Some xs ->
  exists x xs', xs = x :: xs' /\ amount_of line = Some x
                /\ amounts_of rest = Some xs'.
Proof.
  simpl. destruct (amount_of line) as [x|]; [|discriminate].
  destruct (amounts_of rest) as [xs'|]; [|discriminate].
  intros [= <-]. now exists x, xs'.
Qed.

(** [sum] over the amounts of lines with integer quantities, once the
    accumulator is a float. *)
Lemma py_sum_from_float (lines : list cart_line) :
  forall (xs : list float) (a : float),
    amounts_of lines = Some xs ->
    py_sum_from (PyFloat a) (line_amounts lines)
    = Ok (PyFloat (fold_left PrimFloat.add xs a)).
Proof.
  induction lines as [|line rest IH]; intros xs a H.
  - injection H as <-. reflexivity.
  - destruct (amounts_of_cons _ _ _ H) as (x & xs' & -> & Hx & Hrest).
    simpl. rewrite (py_mul_amount _ _ Hx). simpl.
    apply (IH xs' (a + x)%float Hrest).
Qed.

Lemma py_sum_amounts (lines : list cart_line) (xs : list float) :
  amounts_of lines = Some xs ->
  py_sum (line_amounts lines) = Ok (float_total xs).
Proof.
  destruct lines as [|line rest]; intros H.
  - injection H as <-. reflexivity.
  - destruct (amounts_of_cons _ _ _ H) as (x & xs' & -> & Hx & Hrest).
    unfold py_sum.
    change (line_amounts (line :: rest))
      with (py_mul (PyFloat (l_price line)) (l_quantity line) :: line_amounts rest).
    cbn [py_sum_from]. rewrite (py_mul_amount _ _ Hx). cbn [rbind].
    destruct (add_to_zero x) as [-> _]. cbn [rbind].
    apply (py_sum_from_float rest xs' (0 + x)%float Hrest).
Qed.

(** ** Adding to the cart *)

Lemma cart_add_absent (key : string) (product : Product) (quantity : pyval)
    (cart : dict cart_line) :
  dict_get key cart = None ->
  cart_add key product quantity cart
  = Ok (cart ++ [(key, new_line product quantity)])%list.
Proof.
  intros H. unfold cart_add. rewrite H. now rewrite (dict_set_absent _ _ _ H).
Qed.

(** A second add touches the quantity only, also when the product row has
    changed since. *)
Lemma cart_add_present_int (key : string) (product : Product) (a b : Z)
    (line : cart_line) (cart : dict cart_line) :
  dict_get key cart = Some line ->
  l_quantity line = PyInt a ->
  cart_add key product (PyInt b) cart
  = Ok (dict_set key (with_quantity line (PyInt (a + b))) cart).
Proof.
  intros H Hq. unfold cart_add. rewrite H, Hq. reflexivity.
Qed.

Lemma dict_get_app_last {V} (k : string) (v : V) (d : dict V) :
  dict_get k d = None -> dict_get k (d ++ [(k, v)]) = Some v.
Proof.
  intros H. rewrite <- (dict_set_absent _ v _ H). apply dict_get_set_same.
Qed.

Lemma dict_set_app_last {V} (k : string) (v v' : V) (d : dict V) :
  dict_get k d = None ->
  dict_set k v' (d ++ [(k, v)]) = (d ++ [(k, v')])%list.
Proof.
  induction d as [|[k0 v0] rest IH]; simpl.
  - now rewrite String.eqb_refl.
  - destruct (String.eqb_spec k k0); [discriminate|].
    intros H. f_equal. now apply IH.
Qed.

Lemma lines_of_key_absent (key : string) (c : dict cart_line) :
  dict_get key c = None -> lines_of_key key c = [].
Proof.
  unfold lines_of_key.
  induction c as [|[k v] rest IH]; simpl; [reflexivity|].
  destruct (String.eqb key k); [discriminate | exact IH].
Qed.

Lemma cart_add_twice (key : string) (product product' : Product) (q1 q2 : Z)
    (cart : dict cart_line) :
  dict_get key cart = None ->
  let merged := (cart ++ [(key, new_line product (PyInt (q1 + q2)))])%list in
  (c1 <-- cart_add key product (PyInt q1) cart ;;
   cart_add key product' (PyInt q2) c1)%result = Ok merged
  /\ lines_of_key key merged = [(key, new_line product (PyInt (q1 + q2)))].
Proof.
  intros H merged. subst merged. split.
  - rewrite (cart_add_absent _ _ _ _ H). simpl.
    rewrite (cart_add_present_int key product' q1 q2
               (new_line product (PyInt q1)) _ (dict_get_app_last _ _ _ H) eq_refl).
    now rewrite (dict_set_app_last _ _ _ _ H).
  - unfold lines_of_key. rewrite filter_app.
    fold (lines_of_key key cart). rewrite (lines_of_key_absent _ _ H).
    simpl. now rewrite String.eqb_refl.
Qed.

Lemma cart_of_stored (c : dict cart_line) (s : session) (w : world)
    (ps : list Product) :
  cart_of (with_session (set_cart c s) w) = c
  /\ cart_of (with_products ps (with_session (set_cart c s) w)) = c.
Proof. split; reflexivity. Qed.

Lemma add_to_cart_found (w : world) (p q : Z) (form : option string)
    (product : Product) :
  py_int (form_get_quantity form) = Ok q ->
  query_get (w_products w) p = Some product ->
  add_to_cart p form w
  = added product w (cart_add (py_str_int p) product (PyInt q) (cart_of w)).
Proof.
  intros Hq Hp. unfold add_to_cart. run_handler. rewrite Hq, Hp. simpl.
  destruct (cart_add _ _ _ _); reflexivity.
Qed.

Lemma api_add_to_cart_body_found (w : world) (p : Z) (quantity : option pyval)
    (product : Product) :
  query_get (w_products w) p = Some product ->
  api_add_to_cart_body {| cp_product_id := Some p; cp_quantity := quantity |} w
  = added product w
      (cart_add (py_str_int p) product (get_default quantity (PyInt 1))
         (cart_of w)).
Proof.
  intros Hp. unfold api_add_to_cart_body, subscript. run_handler.
  rewrite Hp. simpl. destruct (cart_add _ _ _ _); reflexivity.
Qed.

(** Adding a product that no row has raises, on both routes, and leaves
    the world as it was. *)
Lemma add_to_cart_missing (w : world) (p : Z) (form : option string) :
  query_get (w_products w) p = None ->
  exists e, add_to_cart p form w = (Raise e, w).
Proof.
  intros Hp. unfold add_to_cart. run_handler.
  destruct (py_int (form_get_quantity form)) as [q|e]; cbn [fst snd];
    [|now exists e].
  rewrite Hp. destruct (sqlite_integer p); eexists; reflexivity.
Qed.

Lemma api_add_to_cart_missing (w : world) (p : Z) (quantity : option pyval) :
  query_get (w_products w) p = None ->
  exists e,
    api_add_to_cart_body {| cp_product_id := Some p; cp_quantity := quantity |} w
    = (Raise e, w).
Proof.
  intros Hp. unfold api_add_to_cart_body. run_handler.
  rewrite Hp. destruct (sqlite_integer p); eexists; reflexivity.
Qed.






(** ** Lines, counts and the cart page *)

Lemma distinct_lines_len (c : dict cart_line) :
  NoDup (dict_keys c) -> distinct_lines c = len c.
Proof.
  intros H. unfold distinct_lines, len, dict_keys in *.
  now rewrite (nodup_fixed_point string_dec H), length_map.
Qed.

Lemma cart_add_NoDup (key : string) (product : Product) (quantity : pyval)
    (cart cart' : dict cart_line) :
  NoDup (dict_keys cart) ->
  cart_add key product quantity cart = Ok cart' ->
  NoDup (dict_keys cart').
Proof.
  intros Hnd. unfold cart_add.
  destruct (dict_get key cart) as [line|].
  - destruct (py_iadd _ _); simpl; [|discriminate].
    intros [= <-]. now apply dict_set_NoDup.
  - intros [= <-]. now apply dict_set_NoDup.
Qed.

Lemma view_cart_run (w : world) :
  view_cart w
  = match py_sum (line_amounts (dict_values (cart_of w))) with
    | Ok total => (Ok (CartPage (dict_values (cart_of w)) total), w)
    | Raise e => (Raise e, w)
    end.
Proof.
  unfold view_cart, bind, lift, session_get_cart, ret. cbn [fst snd].
  fold (cart_of w). destruct (py_sum _); reflexivity.
Qed.

(** Without such a quantity on every line there is no page: [/cart]
    raises. *)
Lemma py_sum_from_raises (lines : list cart_line) :
  forall acc, amounts_of lines = None ->
              (exists a, acc = PyInt 0 \/ acc = PyFloat a) ->
              exists e, py_sum_from acc (line_amounts lines) = Raise e.
Proof.
  induction lines as [|line rest IH]; intros acc Hnone Hacc; [discriminate|].
  change (line_amounts (line :: rest))
    with (py_mul (PyFloat (l_price line)) (l_quantity line) :: line_amounts rest).
  cbn [py_sum_from]. simpl in Hnone.
  destruct (amount_of line) as [x|] eqn:Hx.
  - rewrite (py_mul_amount _ _ Hx). cbn [rbind].
    destruct (amounts_of rest) as [xs|] eqn:Hrest; [discriminate|].
    destruct Hacc as [a [-> | ->]].
    + destruct (add_to_zero x) as [-> _]. cbn [rbind].
      apply IH; [reflexivity | exists (0 + x)%float; now right].
    + destruct (add_to_float a x) as [-> _]. cbn [rbind].
      apply IH; [reflexivity | exists (a + x)%float; now right].
  - destruct (py_mul_no_amount _ Hx) as [e ->]. now exists e.
Qed.

Lemma view_cart_raises (w : world) :
  amounts_of (dict_values (cart_of w)) = None ->
  exists e, view_cart w = (Raise e, w).
Proof.
  intros Hnone. rewrite view_cart_run. unfold py_sum.
  destruct (py_sum_from_raises _ (PyInt 0) Hnone) as [e ->].
  - exists 0%float. now left.
  - now exists e.
Qed.

(** Three more tomatoes in a cart of five tomatoes and two apples: the
    answer counts the two lines, not the ten items. *)
Example cart_count_is_not_quantity_sum :
  let w := world_with_cart [("1", tomato_line (PyInt 5));
                            ("2", apple_line (PyInt 2))] in
  let after := exec (add_to_cart 1 (Some "3")) w in
  eval (add_to_cart 1 (Some "3")) w
  = Ok (Json 200 (PyDict [("success", PyBool true);
                          ("message", PyStr "Organic Tomatoes added to cart!");
                          ("cart_count", PyInt 2)]))
  /\ cart_of after = [("1", tomato_line (PyInt 8)); ("2", apple_line (PyInt 2))]
  /\ distinct_lines (cart_of after) = 2
  /\ quantity_sum (dict_values (cart_of after)) = 10.
Proof.
  repeat split; vm_compute; reflexivity.
Qed.

(** ** The cart listing of the API *)

Lemma resolves_found (ps : list Product) (key : string) (id : Z) (product : Product) :
  py_int_of_str key = Ok id ->
  query_get ps id = Some product ->
  resolves ps key = true /\ p_id product = id.
Proof.
  intros Hk Hq. unfold resolves. rewrite Hk, Hq. split; [reflexivity|].
  now apply query_get_some in Hq.
Qed.

Lemma resolves_missing (ps : list Product) (key : string) (id : Z) :
  py_int_of_str key = Ok id ->
  query_get ps id = None ->
  resolves ps key = false.
Proof.
  intros Hk Hq. unfold resolves. now rewrite Hk, Hq.
Qed.

Lemma cart_entry_expected (key : string) (id : Z) (product : Product)
    (item : cart_line) (x : float) :
  py_int_of_str key = Ok id ->
  p_id product = id ->
  cart_entry product item (PyFloat x) = expected_entry (key, item) x.
Proof.
  intros Hk Hid. unfold cart_entry, expected_entry. simpl.
  now rewrite Hk, Hid.
Qed.

Lemma storable_keys_readable (c : dict cart_line) :
  storable_keys c -> readable_keys c.
Proof.
  unfold storable_keys, readable_keys. apply Forall_impl.
  intros kv (id & -> & Hrange). exists id. split; [|exact Hrange].
  apply py_int_of_str_int.
Qed.

(** When every line resolves, every key is one the database can look up. *)
Lemma resolving_keys_readable (ps : list Product) (c : dict cart_line) :
  resolvable ps c = c -> readable_keys c.
Proof.
  intros Hall. unfold readable_keys. apply Forall_forall. intros kv Hin.
  rewrite <- Hall in Hin. apply filter_In in Hin as [_ Hres].
  unfold resolves in Hres.
  destruct (py_int_of_str (fst kv)) as [id|]; [|discriminate].
  exists id. split; [reflexivity|].
  destruct (query_get ps id) as [product|] eqn:Hq; [|discriminate].
  now apply query_get_some in Hq.
Qed.

(** The loop, from a float total on: unresolvable lines are passed over,
    the others are appended and added. *)
Lemma api_get_cart_loop_float (ps : list Product) (items : dict cart_line) :
  readable_keys items ->
  forall (xs : list float) (acc : list pyval) (a : float),
    amounts_of (dict_values (resolvable ps items)) = Some xs ->
    api_get_cart_loop ps items acc (PyFloat a)
    = Ok (acc ++ expected_entries (resolvable ps items) xs,
          PyFloat (fold_left PrimFloat.add xs a)).
Proof.
  induction 1 as [|[key item] rest [id [Hk Hrange]] Hrest IH]; intros xs acc a Hxs.
  - injection Hxs as <-. simpl. now rewrite app_nil_r.
  - simpl in Hk. cbn [api_get_cart_loop py_int]. rewrite Hk. cbn [rbind].
    unfold resolvable in *. cbn [filter fst] in Hxs |- *.
    destruct (query_get ps id) as [product|] eqn:Hq.
    + destruct (resolves_found ps key id product Hk Hq) as [Hres Hid].
      rewrite Hres in Hxs |- *.
      destruct (amounts_of_cons _ _ _ Hxs) as (x & xs' & -> & Hx & Hxs').
      cbn [snd] in Hx. rewrite (py_mul_amount _ _ Hx). cbn [rbind].
      destruct (add_to_float a x) as [_ ->]. cbn [rbind].
      rewrite (IH xs' _ (a + x)%float Hxs').
      rewrite (cart_entry_expected key id product item x Hk Hid).
      now rewrite <- app_assoc.
    + rewrite (resolves_missing ps key id Hk Hq) in Hxs |- *.
      rewrite Hrange. apply (IH xs acc a Hxs).
Qed.

Lemma api_get_cart_loop_start (ps : list Product) (items : dict cart_line) :
  readable_keys items ->
  forall xs : list float,
    amounts_of (dict_values (resolvable ps items)) = Some xs ->
    api_get_cart_loop ps items [] (PyInt 0)
    = Ok (expected_entries (resolvable ps items) xs, float_total xs).
Proof.
  induction 1 as [|[key item] rest [id [Hk Hrange]] Hrest IH]; intros xs Hxs.
  - injection Hxs as <-. reflexivity.
  - simpl in Hk. cbn [api_get_cart_loop py_int]. rewrite Hk. cbn [rbind].
    unfold resolvable in *. cbn [filter fst] in Hxs |- *.
    destruct (query_get ps id) as [product|] eqn:Hq.
    + destruct (resolves_found ps key id product Hk Hq) as [Hres Hid].
      rewrite Hres in Hxs |- *.
      destruct (amounts_of_cons _ _ _ Hxs) as (x & xs' & -> & Hx & Hxs').
      cbn [snd] in Hx. rewrite (py_mul_amount _ _ Hx). cbn [rbind].
      destruct (add_to_zero x) as [_ ->]. cbn [rbind].
      fold (resolvable ps rest) in Hxs' |- *.
      rewrite (api_get_cart_loop_float ps rest Hrest xs' _ (0 + x)%float Hxs').
      now rewrite (cart_entry_expected key id product item x Hk Hid).
    + rewrite (resolves_missing ps key id Hk Hq) in Hxs |- *.
      rewrite Hrange. apply (IH xs Hxs).
Qed.

Lemma amounts_of_length (lines : list cart_line) :
  forall xs, amounts_of lines = Some xs -> length xs = length lines.
Proof.
  induction lines as [|line rest IH]; intros xs H.
  - now injection H as <-.
  - destruct (amounts_of_cons _ _ _ H) as (x & xs' & -> & _ & Hrest).
    simpl. f_equal. now apply IH.
Qed.

Lemma expected_entries_length (lines : dict cart_line) :
  forall xs, length xs = length lines ->
             length (expected_entries lines xs) = length lines.
Proof.
  induction lines as [|kv rest IH]; intros [|x xs] H; simpl in *;
    try reflexivity; try discriminate.
  f_equal. apply IH. now injection H.
Qed.

Lemma api_get_cart_run (w : world) :
  api_get_cart w
  = match api_get_cart_loop (w_products w) (cart_of w) [] (PyInt 0) with
    | Ok listing =>
        (Ok (jsonify [("success", PyBool true);
                      ("items", PyList (fst listing));
                      ("total", snd listing);
                      ("cart_count", PyInt (len (cart_of w)))]), w)
    | Raise e => (Ok (Json 400 (error_body e)), w)
    end.
Proof.
  unfold api_get_cart, api_get_cart_body. run_handler.
  destruct (api_get_cart_loop _ _ _ _); reflexivity.
Qed.

(** When the lines that resolve cannot all be priced, the lines of the cart
    cannot. *)
Lemma amounts_of_sublist_none (ps : list Product) (c : dict cart_line) :
  amounts_of (dict_values (resolvable ps c)) = None ->
  amounts_of (dict_values c) = None.
Proof.
  unfold resolvable, dict_values.
  induction c as [|[key item] rest IH]; cbn [filter map fst snd amounts_of];
    [discriminate|].
  destruct (resolves ps key); cbn [map snd amounts_of].
  - destruct (amount_of item); [|reflexivity].
    destruct (amounts_of (map snd (filter _ rest))); [discriminate|].
    intros _. now rewrite IH.
  - intros H. rewrite (IH H). now destruct (amount_of item).
Qed.

(** C4, at two carts of the seeded application.  A cart holding tomatoes
    with the integer quantity 10^400, as [/add_to_cart/1] stores it for that
    quantity: the line resolves, its price times its quantity has no float
    value, and [GET /api/cart] answers 400 with the text of the
    [OverflowError]: no items, no total, no count.  A cart holding a line
    under the key "1.0": [int] cannot read the key, and the listing answers
    400 with the text of the [ValueError] instead of passing the line
    over. *)
Lemma api_cart_listing_refused :
  let huge := world_with_cart [("1", tomato_line (PyInt (10 ^ 400)))] in
  let dotted := world_with_cart [("1.0", tomato_line (PyInt 1));
                                 ("2", apple_line (PyInt 2))] in
  (text_within_limit (quantity_text (10 ^ 400)) = true
   /\ exec (add_to_cart 1 (quantity_text (10 ^ 400))) initial_world = huge
   /\ api_get_cart huge
      = (Ok (Json 400 (PyDict [("success", PyBool false);
                               ("error", PyStr "int too large to convert to float")])),
         huge))
  /\ (resolves (w_products dotted) "1.0" = false
      /\ api_get_cart dotted
         = (Ok (Json 400
                  (PyDict [("success", PyBool false);
                           ("error",
                            PyStr "invalid literal for int() with base 10: '1.0'")])),
            dotted)).
Proof.
  repeat split; vm_compute; reflexivity.
Qed.

(** C4 as the handler has it, for a session cart with distinct keys, each
    the text [str(id)] of an integer the database can look up (the keys the
    add routes store for the products they find), in which the lines that
    resolve in the catalog have numbers with a float value as quantities:
    [GET /api/cart] answers with a success whose ["items"] are the entries
    of exactly the lines that resolve, in the order of the cart ([shown]; a
    line that does not resolve is not among them, and raises nothing,
    whatever it holds), whose ["total"] is the sum of price times quantity
    over those lines only ([xs]), and whose ["cart_count"] is the number of
    distinct lines of the whole stored cart, the unresolvable ones
    included. *)
Theorem api_cart_lists_resolvable (w : world) (xs : list float) :
  NoDup (dict_keys (cart_of w)) ->
  storable_keys (cart_of w) ->
  amounts_of (dict_values (resolvable (w_products w) (cart_of w))) = Some xs ->
  let shown := resolvable (w_products w) (cart_of w) in
  api_get_cart w
  = (Ok (Json 200 (PyDict [("success", PyBool true);
                           ("items", PyList (expected_entries shown xs));
                           ("total", float_total xs);
                           ("cart_count", PyInt (distinct_lines (cart_of w)))])),
     w)
  /\ length (expected_entries shown xs) = length shown
  /\ Forall (fun kv => In kv (cart_of w)
                       /\ resolves (w_products w) (fst kv) = true) shown
  /\ Forall (fun kv => resolves (w_products w) (fst kv) = false
                       -> ~ In kv shown) (cart_of w).
Proof.
  intros Hnd Hkeys Hxs shown. subst shown. repeat split.
  - rewrite api_get_cart_run.
    rewrite (api_get_cart_loop_start _ _ (storable_keys_readable _ Hkeys) xs Hxs).
    now rewrite (distinct_lines_len _ Hnd).
  - apply expected_entries_length.
    rewrite (amounts_of_length _ _ Hxs). unfold dict_values.
    apply length_map.
  - apply Forall_forall. intros kv Hin.
    now apply filter_In in Hin.
  - apply Forall_forall. intros kv _ Hres Hin.
    apply filter_In in Hin as [_ Hin]. congruence.
Qed.

(** The line of product 7, which the seeded catalog does not have, holds a
    text as quantity: it is passed over all the same. *)
Lemma api_cart_lists_resolvable_witness :
  let ghost := with_quantity ghost_line (PyStr "abc") in
  let cart := [("1", tomato_line (PyInt 5)); ("2", apple_line (PyInt 2));
               ("7", ghost)] in
  let w := world_with_cart cart in
  let shown := [("1", tomato_line (PyInt 5)); ("2", apple_line (PyInt 2))] in
  let xs := [(3.99 * 5)%float; (2.49 * 2)%float] in
  resolvable (w_products w) (cart_of w) = shown
  /\ api_get_cart w
     = (Ok (Json 200
              (PyDict [("success", PyBool true);
                       ("items",
                        PyList [expected_entry ("1", tomato_line (PyInt 5))
                                  (3.99 * 5)%float;
                                expected_entry ("2", apple_line (PyInt 2))
                                  (2.49 * 2)%float]);
                       ("total", PyFloat (0 + 3.99 * 5 + 2.49 * 2)%float);
                       ("cart_count", PyInt 3)])),
        w)
  /\ length (expected_entries shown xs) = length shown
  /\ Forall (fun kv => In kv (cart_of w)
                       /\ resolves (w_products w) (fst kv) = true) shown
  /\ Forall (fun kv => resolves (w_products w) (fst kv) = false
                       -> ~ In kv shown) (cart_of w).
Proof.
  intros ghost cart w shown xs. split; [reflexivity|].
  refine (api_cart_lists_resolvable w xs _ _ eq_refl).
  - repeat constructor; simpl; intuition discriminate.
  - repeat constructor; simpl;
      [exists 1 | exists 2 | exists 7]; split; reflexivity.
Defined.

(** ** The total of the cart page and the count of lines *)






(** ** The carts the handlers can build *)

Lemma decimal_keys_set (key : string) (id : Z) (line : cart_line)
    (c : dict cart_line) :
  py_int_of_str key = Ok id ->
  decimal_keys c -> decimal_keys (dict_set key line c).
Proof.
  intros Hk. unfold decimal_keys.
  induction 1 as [|[k v] rest Hkv Hrest IH]; simpl.
  - repeat constructor. now exists id.
  - destruct (String.eqb key k); constructor; assumption.
Qed.

Lemma decimal_keys_del (key : string) (c : dict cart_line) :
  decimal_keys c -> decimal_keys (dict_del key c).
Proof.
  unfold decimal_keys.
  induction 1 as [|[k v] rest Hkv Hrest IH]; simpl.
  - constructor.
  - destruct (String.eqb key k); [assumption | now constructor].
Qed.

Lemma cart_add_invariant (p : Z) (product : Product) (quantity : pyval)
    (w : world) (c : dict cart_line) :
  cart_invariant w ->
  cart_add (py_str_int p) product quantity (cart_of w) = Ok c ->
  cart_invariant (with_session (set_cart c (w_session w)) w).
Proof.
  intros [Hnd Hdec] Hadd. split.
  - exact (cart_add_NoDup _ _ _ _ _ Hnd Hadd).
  - change (decimal_keys c). unfold cart_add in Hadd.
    destruct (dict_get _ _) as [line|].
    + destruct (py_iadd _ _); simpl in Hadd; [|discriminate].
      injection Hadd as <-.
      exact (decimal_keys_set _ p _ _ (py_int_of_str_int p) Hdec).
    + injection Hadd as <-.
      exact (decimal_keys_set _ p _ _ (py_int_of_str_int p) Hdec).
Qed.

Lemma added_invariant (p : Z) (product : Product) (quantity : pyval) (w : world) :
  cart_invariant w ->
  cart_invariant
    (snd (added product w (cart_add (py_str_int p) product quantity (cart_of w)))).
Proof.
  intros Hinv. destruct (cart_add _ _ _ _) as [c|e] eqn:E; simpl.
  - exact (cart_add_invariant p product quantity w c Hinv E).
  - exact Hinv.
Qed.

Lemma add_to_cart_invariant (p : Z) (form : option string) (w : world) :
  cart_invariant w -> cart_invariant (exec (add_to_cart p form) w).
Proof.
  intros Hinv. unfold exec.
  destruct (py_int (form_get_quantity form)) as [q|e] eqn:Hq.
  - destruct (query_get (w_products w) p) as [product|] eqn:Hp.
    + rewrite (add_to_cart_found w p q form product Hq Hp).
      now apply added_invariant.
    + destruct (add_to_cart_missing w p form Hp) as [e He]. now rewrite He.
  - unfold add_to_cart. run_handler. now known Hq.
Qed.

Lemma api_add_to_cart_invariant (data : cart_post) (w : world) :
  cart_invariant w -> cart_invariant (exec (api_add_to_cart data) w).
Proof.
  intros Hinv. unfold exec. destruct data as [[p|] quantity].
  - destruct (query_get (w_products w) p) as [product|] eqn:Hp.
    + unfold api_add_to_cart, try_except.
      rewrite (api_add_to_cart_body_found w p quantity product Hp).
      pose proof (added_invariant p product (get_default quantity (PyInt 1))
                    w Hinv) as H.
      destruct (cart_add _ _ _ _); simpl in *; assumption.
    + unfold api_add_to_cart, try_except.
      destruct (api_add_to_cart_missing w p quantity Hp) as [e He].
      now rewrite He.
  - exact Hinv.
Qed.

Lemma remove_invariant (p : Z) (w : world) :
  cart_invariant w ->
  cart_invariant (exec (remove_from_cart p) w)
  /\ cart_invariant (exec (api_remove_from_cart p) w).
Proof.
  intros [Hnd Hdec].
  unfold remove_from_cart, api_remove_from_cart, api_remove_from_cart_body.
  run_handler.
  destruct (dict_get (py_str_int p) (cart_of w)); cbn [fst snd];
    (split; split; try assumption;
     first [ exact (dict_del_NoDup _ _ Hnd) | exact (decimal_keys_del _ _ Hdec) ]).
Qed.

Lemma next_request_invariant (w : world) :
  cart_invariant w -> cart_invariant (next_request w).
Proof.
  intros [Hnd Hdec]. unfold cart_invariant.
  rewrite cart_of_next_request. split.
  - now apply sorted_keys_NoDup.
  - unfold decimal_keys.
    eapply Permutation_Forall; [|exact Hdec].
    symmetry. apply sorted_by_key_perm.
Qed.

Section Reachable.
Variable float_of_str : string -> option float.
Variable validate_on_submit : string -> string -> bool.
Variable check_password_hash : string -> string -> bool.

(** The product routes leave the session alone. *)
Lemma product_routes_keep_session (w : world) (id : Z) (data : product_payload) :
  w_session (exec (api_add_product float_of_str data) w) = w_session w
  /\ w_session (exec (api_update_product float_of_str id data) w) = w_session w
  /\ w_session (exec (api_delete_product id) w) = w_session w.
Proof.
  unfold api_add_product, api_add_product_body, api_update_product,
    api_update_product_body, api_delete_product, api_delete_product_body,
    session_get_user, db_insert, db_update, db_delete.
  run_handler. repeat split.
  - destruct (pp_name data); cbn [fst snd]; [|reflexivity].
    destruct (pp_category data); cbn [fst snd]; [|reflexivity].
    destruct (pp_price data) as [v|]; cbn [fst snd]; [|reflexivity].
    destruct (py_float float_of_str v); cbn [fst snd]; [|reflexivity].
    destruct (optional_stock (pp_stock data)); cbn [fst snd]; [|reflexivity].
    destruct (sqlite_integer _); reflexivity.
  - destruct (query_get (w_products w) id); cbn [fst snd];
      [|now destruct (sqlite_integer id)].
    destruct (pp_name data); cbn [fst snd]; [|reflexivity].
    destruct (pp_category data); cbn [fst snd]; [|reflexivity].
    destruct (pp_price data) as [v|]; cbn [fst snd]; [|reflexivity].
    destruct (py_float float_of_str v); cbn [fst snd]; [|reflexivity].
    destruct (optional_stock (pp_stock data)); cbn [fst snd]; [|reflexivity].
    destruct (sqlite_integer _); reflexivity.
  - destruct (query_get (w_products w) id); [|destruct (sqlite_integer id)];
      reflexivity.
Qed.

(** Logging in changes the principal and the queued messages, not the
    cart. *)
Lemma login_keeps_cart (w : world) (email password : string) :
  cart_of (exec (login validate_on_submit check_password_hash email password) w)
  = cart_of w.
Proof.
  unfold login, exec, bind, all_users, flash, set_session_principal, ret.
  destruct (validate_on_submit email password); [|reflexivity].
  cbn [fst snd].
  destruct (first_by_email (w_users w) email) as [u|]; [|reflexivity].
  destruct (check_password_hash (u_password u) password); reflexivity.
Qed.

Lemma serve_invariant (rq : request) (w : world) :
  cart_invariant w ->
  cart_invariant
    (exec (serve float_of_str validate_on_submit check_password_hash rq) w).
Proof.
  intros Hinv. destruct rq as [p form| |p|[data|id data|id| |data|p]|email password];
    cbn [serve api_route].
  - now apply add_to_cart_invariant.
  - now rewrite view_cart_frame.
  - now apply remove_invariant.
  - unfold cart_invariant, cart_of.
    now rewrite (proj1 (product_routes_keep_session w 0 data)).
  - unfold cart_invariant, cart_of.
    now rewrite (proj1 (proj2 (product_routes_keep_session w id data))).
  - unfold cart_invariant, cart_of.
    now rewrite (proj2 (proj2 (product_routes_keep_session w id
                                 {| pp_name := None; pp_category := None;
                                    pp_price := None; pp_image := None;
                                    pp_description := None; pp_stock := None;
                                    pp_origin := None |}))).
  - now rewrite api_get_cart_frame.
  - now apply api_add_to_cart_invariant.
  - now apply remove_invariant.
  - unfold cart_invariant. now rewrite login_keeps_cart.
Qed.

(** Whatever requests a session makes from the start with integers as
    product identifiers, its cart has distinct keys that are decimal
    texts. *)
Lemma reachable_cart_invariant (rqs : list request) :
  cart_invariant
    (serve_all float_of_str validate_on_submit check_password_hash rqs
       initial_world).
Proof.
  assert (H0 : cart_invariant initial_world) by (split; constructor).
  revert H0. generalize initial_world.
  induction rqs as [|rq rest IH]; intros w Hw; simpl.
  - exact Hw.
  - apply IH. apply next_request_invariant. now apply serve_invariant.
Qed.

End Reachable.

(** ** Further checks on the seeded application *)

(** Adding a product leaves the lines of the other products as they were. *)
Lemma add_keeps_other_lines (w : world) (p p' : Z) (form : option string) :
  p <> p' ->
  dict_get (py_str_int p') (cart_of (exec (add_to_cart p form) w))
  = dict_get (py_str_int p') (cart_of w).
Proof.
  intros Hne.
  assert (Hkey : py_str_int p <> py_str_int p')
    by (intros E; apply Hne; now apply py_str_int_inj).
  unfold exec.
  destruct (py_int (form_get_quantity form)) as [q|e] eqn:Hq.
  - destruct (query_get (w_products w) p) as [product|] eqn:Hp.
    + rewrite (add_to_cart_found w p q form product Hq Hp).
      unfold cart_add.
      destruct (dict_get (py_str_int p) (cart_of w)) as [line|].
      * destruct (py_iadd _ _); [|reflexivity]. cbn [rbind added snd].
        change (cart_of (with_session (set_cart ?c _) _)) with c.
        now apply dict_get_set_other.
      * cbn [added snd].
        change (cart_of (with_session (set_cart ?c _) _)) with c.
        now apply dict_get_set_other.
    + destruct (add_to_cart_missing w p form Hp) as [e He]. now rewrite He.
  - unfold add_to_cart. run_handler. now known Hq.
Qed.

(** Two tomatoes, then three more, through the API: the listing shows one
    line of five and five times the price. *)
Example api_add_two_then_three :
  let post q := {| cp_product_id := Some 1; cp_quantity := Some (PyInt q) |} in
  let w := next_request
             (exec (api_add_to_cart (post 3))
                (next_request (exec (api_add_to_cart (post 2)) initial_world))) in
  eval api_get_cart w
  = Ok (Json 200
          (PyDict [("success", PyBool true);
                   ("items",
                    PyList [expected_entry ("1", tomato_line (PyInt 5))
                              19.950000000000003%float]);
                   ("total", PyFloat 19.950000000000003%float);
                   ("cart_count", PyInt 1)])).
Proof.
  vm_compute. reflexivity.
Qed.

(** * Further properties of the handlers *)

(** ** Removing a line that is there *)

(** When the cart, with distinct keys, holds a line for [p]: both remove
    routes answer with a success naming the product as the line recorded it,
    the API route with the count of the lines that are left, one less than
    before; the line of [p] is gone and every other line is as it was. *)
Theorem remove_present_line (w : world) (p : Z) (line : cart_line) :
  NoDup (dict_keys (cart_of w)) ->
  dict_get (py_str_int p) (cart_of w) = Some line ->
  let rest := dict_del (py_str_int p) (cart_of w) in
  let w' := with_session (set_cart rest (w_session w)) w in
  remove_from_cart p w
  = (Ok (Json 200 (PyDict [("success", PyBool true);
                           ("message", PyStr (l_name line ++ " removed from cart!")%string)])),
     w')
  /\ api_remove_from_cart p w
     = (Ok (Json 200 (PyDict [("success", PyBool true);
                              ("message", PyStr (l_name line ++ " removed from cart!")%string);
                              ("cart_count", PyInt (len (cart_of w) - 1))])),
        w')
  /\ cart_of w' = rest
  /\ dict_get (py_str_int p) rest = None
  /\ forall k, k <> py_str_int p -> dict_get k rest = dict_get k (cart_of w).
Proof.
  intros Hnd Hline rest w'. subst rest w'.
  unfold remove_from_cart, api_remove_from_cart, api_remove_from_cart_body.
  run_handler. rewrite Hline. cbn [fst snd].
  rewrite (dict_del_length _ _ _ Hline).
  repeat split.
  - now apply dict_get_del_same.
  - intros k Hk. apply dict_get_del_other. congruence.
Qed.

Lemma remove_present_line_witness :
  let w := world_with_cart [("1", tomato_line (PyInt 5));
                            ("2", apple_line (PyInt 2))] in
  let w' := world_with_cart [("2", apple_line (PyInt 2))] in
  dict_get (py_str_int 1) (cart_of w) = Some (tomato_line (PyInt 5))
  /\ api_remove_from_cart 1 w
     = (Ok (Json 200 (PyDict [("success", PyBool true);
                              ("message", PyStr "Organic Tomatoes removed from cart!");
                              ("cart_count", PyInt 1)])),
        w').
Proof.
  intros w w'. split; [reflexivity|].
  refine (proj1 (proj2 (remove_present_line w 1 (tomato_line (PyInt 5)) _ eq_refl))).
  repeat constructor; simpl; intuition discriminate.
Defined.

(** ** Adding and removing compose *)

Lemma py_int_form_text (q : Z) :
  py_int (form_get_quantity (Some (py_str_int q))) = Ok q.
Proof. exact (py_int_of_str_int q). Qed.

Lemma remove_run (w : world) (p : Z) :
  exec (remove_from_cart p) w
  = match dict_get (py_str_int p) (cart_of w) with
    | Some _ =>
        with_session (set_cart (dict_del (py_str_int p) (cart_of w)) (w_session w)) w
    | None => w
    end
  /\ exec (api_remove_from_cart p) w = exec (remove_from_cart p) w.
Proof.
  unfold remove_from_cart, api_remove_from_cart, api_remove_from_cart_body.
  run_handler. destruct (dict_get (py_str_int p) (cart_of w)); split; reflexivity.
Qed.

(** Removing the line of a key gives, in some order, the lines that were
    there beside it. *)
Lemma dict_del_perm {V} (k : string) (v : V) (d : dict V) :
  dict_get k d = Some v -> Permutation d ((k, v) :: dict_del k d).
Proof.
  induction d as [|[k0 v0] rest IH]; simpl; [discriminate|].
  destruct (String.eqb_spec k k0) as [->|Hne].
  - intros [= ->]. reflexivity.
  - intros H. rewrite (IH H) at 1. apply perm_swap.
Qed.

(** Adding a product that is in the catalog and not in the cart, with an
    integer quantity, and removing it in the next request, gives back the
    lines there were: the cart the request after finds holds the lines of
    the cart before, each once, so that every key is bound as it was; the
    order is that of the cookie.  So on the page routes, so on the API. *)
Theorem add_then_remove_restores_cart
    (w : world) (p q : Z) (product : Product) (form : option string)
    (quantity : option pyval) :
  NoDup (dict_keys (cart_of w)) ->
  query_get (w_products w) p = Some product ->
  dict_get (py_str_int p) (cart_of w) = None ->
  text_within_limit form = true ->
  py_int (form_get_quantity form) = Ok q ->
  value_within_limit quantity = true ->
  let post := {| cp_product_id := Some p; cp_quantity := quantity |} in
  let after :=
    cart_of (next_request
               (exec (remove_from_cart p)
                  (next_request (exec (add_to_cart p form) w)))) in
  let after_api :=
    cart_of (next_request
               (exec (api_remove_from_cart p)
                  (next_request (exec (api_add_to_cart post) w)))) in
  Permutation after (cart_of w)
  /\ (forall k, dict_get k after = dict_get k (cart_of w))
  /\ Permutation after_api (cart_of w)
  /\ (forall k, dict_get k after_api = dict_get k (cart_of w)).
Proof.
  intros Hnd Hp Habs _ Hq _ post after after_api.
  assert (Hrestored : forall line,
             Permutation
               (sorted_by_key
                  (dict_del (py_str_int p)
                     (sorted_by_key (cart_of w ++ [(py_str_int p, line)]))))
               (cart_of w)).
  { intros line.
    assert (Hc1 : NoDup (dict_keys (cart_of w ++ [(py_str_int p, line)]))).
    { rewrite <- (dict_set_absent _ line _ Habs). now apply dict_set_NoDup. }
    assert (Hget : dict_get (py_str_int p)
                     (sorted_by_key (cart_of w ++ [(py_str_int p, line)]))
                   = Some line).
    { rewrite (sorted_get _ _ Hc1). now apply dict_get_app_last. }
    rewrite sorted_by_key_perm.
    apply (Permutation_cons_inv (a := (py_str_int p, line))).
    rewrite <- (dict_del_perm _ _ _ Hget), sorted_by_key_perm.
    symmetry. apply Permutation_cons_append. }
  assert (Hremoved : forall line (w1 : world),
             cart_of w1 = cart_of w ++ [(py_str_int p, line)] ->
             cart_of (next_request
                        (exec (remove_from_cart p) (next_request w1)))
             = sorted_by_key
                 (dict_del (py_str_int p)
                    (sorted_by_key (cart_of w ++ [(py_str_int p, line)])))).
  { intros line w1 Hw1.
    assert (Hc1 : NoDup (dict_keys (cart_of w ++ [(py_str_int p, line)]))).
    { rewrite <- (dict_set_absent _ line _ Habs). now apply dict_set_NoDup. }
    rewrite cart_of_next_request, (proj1 (remove_run _ p)).
    rewrite cart_of_next_request, Hw1, (sorted_get _ _ Hc1).
    now rewrite (dict_get_app_last _ _ _ Habs). }
  assert (Hleg : Permutation after (cart_of w)).
  { subst after.
    rewrite (Hremoved (new_line product (PyInt q))); [apply Hrestored|].
    unfold exec. rewrite (add_to_cart_found w p q form product Hq Hp).
    now rewrite (cart_add_absent _ product (PyInt q) _ Habs). }
  assert (Hapi : Permutation after_api (cart_of w)).
  { subst after_api post. rewrite (proj2 (remove_run _ p)).
    rewrite (Hremoved (new_line product (get_default quantity (PyInt 1))));
      [apply Hrestored|].
    unfold exec, api_add_to_cart, try_except.
    rewrite (api_add_to_cart_body_found w p quantity product Hp).
    now rewrite (cart_add_absent _ product _ _ Habs). }
  split; [exact Hleg|]. split; [|split; [exact Hapi|]].
  - intros k. symmetry. apply dict_get_perm; [now symmetry | exact Hnd].
  - intros k. symmetry. apply dict_get_perm; [now symmetry | exact Hnd].
Qed.

(** Tomatoes are added to a cart of apples and spinach, and removed: the
    line is stored last, found first by the next request, and gone after
    it. *)
Lemma add_then_remove_restores_cart_witness :
  let spinach :=
    {| l_id := 5; l_name := "Organic Spinach"; l_price := 2.99;
       l_quantity := PyInt 1; l_image := "" |} in
  let w := world_with_cart [("2", apple_line (PyInt 2)); ("5", spinach)] in
  let post := {| cp_product_id := Some 1; cp_quantity := Some (PyInt 3) |} in
  let after :=
    cart_of (next_request
               (exec (remove_from_cart 1)
                  (next_request (exec (add_to_cart 1 (Some "3")) w)))) in
  let after_api :=
    cart_of (next_request
               (exec (api_remove_from_cart 1)
                  (next_request (exec (api_add_to_cart post) w)))) in
  (cart_of (exec (add_to_cart 1 (Some "3")) w)
   = [("2", apple_line (PyInt 2)); ("5", spinach); ("1", tomato_line (PyInt 3))]
   /\ cart_of (next_request (exec (add_to_cart 1 (Some "3")) w))
      = [("1", tomato_line (PyInt 3)); ("2", apple_line (PyInt 2)); ("5", spinach)]
   /\ after = [("2", apple_line (PyInt 2)); ("5", spinach)])
  /\ Permutation after (cart_of w)
  /\ (forall k, dict_get k after = dict_get k (cart_of w))
  /\ Permutation after_api (cart_of w)
  /\ (forall k, dict_get k after_api = dict_get k (cart_of w)).
Proof.
  intros spinach w post after after_api.
  split; [repeat split; vm_compute; reflexivity|].
  refine (add_then_remove_restores_cart w 1 3
            (sample 1 "Organic Tomatoes" "Vegetables" 3.99
               "https://images.unsplash.com/photo-1546470427-e212d4d25323?w=400"
               "Fresh organic tomatoes grown without pesticides, perfect for salads and cooking."
               50)
            (Some "3") (Some (PyInt 3)) _ eq_refl eq_refl eq_refl eq_refl _).
  - repeat constructor; simpl; intuition discriminate.
  - vm_compute. reflexivity.
Defined.

(** The page route and the API route of each cart change leave the same
    world behind: adding [p] with the integer quantity [q] (as form text or
    as a JSON integer), adding [p] with no quantity given, and removing [p],
    whatever the cart and the catalog; they differ in the answer only. *)
Theorem cart_surfaces_agree (w : world) (p q : Z) :
  exec (add_to_cart p (Some (py_str_int q))) w
  = exec (api_add_to_cart
            {| cp_product_id := Some p; cp_quantity := Some (PyInt q) |}) w
  /\ exec (add_to_cart p None) w
     = exec (api_add_to_cart {| cp_product_id := Some p; cp_quantity := None |}) w
  /\ exec (remove_from_cart p) w = exec (api_remove_from_cart p) w.
Proof.
  assert (Hadd : forall form quantity,
             py_int (form_get_quantity form) = Ok q ->
             get_default quantity (PyInt 1) = PyInt q ->
             exec (add_to_cart p form) w
             = exec (api_add_to_cart
                       {| cp_product_id := Some p; cp_quantity := quantity |}) w).
  { intros form quantity Hf Hj. unfold exec.
    destruct (query_get (w_products w) p) as [product|] eqn:Hp.
    - rewrite (add_to_cart_found w p q form product Hf Hp).
      unfold api_add_to_cart, try_except.
      rewrite (api_add_to_cart_body_found w p quantity product Hp), Hj.
      destruct (cart_add _ _ _ _); reflexivity.
    - unfold api_add_to_cart, try_except.
      destruct (add_to_cart_missing w p form Hp) as [e He].
      destruct (api_add_to_cart_missing w p quantity Hp) as [e' He'].
      now rewrite He, He'. }
  split; [|split].
  - apply Hadd; [apply py_int_form_text | reflexivity].
  - clear Hadd. unfold exec.
    destruct (query_get (w_products w) p) as [product|] eqn:Hp.
    + rewrite (add_to_cart_found w p 1 None product eq_refl Hp).
      unfold api_add_to_cart, try_except.
      rewrite (api_add_to_cart_body_found w p None product Hp).
      cbn [get_default]. destruct (cart_add _ _ _ _); reflexivity.
    + unfold api_add_to_cart, try_except.
      destruct (add_to_cart_missing w p None Hp) as [e He].
      destruct (api_add_to_cart_missing w p None Hp) as [e' He'].
      now rewrite He, He'.
  - symmetry. apply remove_run.
Qed.

(** ** Adding again and again *)






(** ** What an add leaves alone *)

Lemma added_keeps_other_lines (key k : string) (product : Product)
    (quantity : pyval) (w : world) :
  key <> k ->
  dict_get k (cart_of (snd (added product w
                              (cart_add key product quantity (cart_of w)))))
  = dict_get k (cart_of w).
Proof.
  intros Hne. unfold cart_add.
  destruct (dict_get key (cart_of w)) as [line|].
  - destruct (py_iadd _ _); [|reflexivity]. cbn [rbind added snd].
    change (cart_of (with_session (set_cart ?c _) _)) with c.
    now apply dict_get_set_other.
  - cbn [added snd].
    change (cart_of (with_session (set_cart ?c _) _)) with c.
    now apply dict_get_set_other.
Qed.

(** An add of [p], on either route and whatever it is given and whatever
    comes of it, leaves the line of every other product [p'] as it was, and
    never touches the catalog or the users. *)
Theorem add_touches_one_line
    (w : world) (p p' : Z) (form : option string) (quantity : option pyval) :
  p <> p' ->
  let post := {| cp_product_id := Some p; cp_quantity := quantity |} in
  dict_get (py_str_int p') (cart_of (exec (add_to_cart p form) w))
  = dict_get (py_str_int p') (cart_of w)
  /\ dict_get (py_str_int p') (cart_of (exec (api_add_to_cart post) w))
     = dict_get (py_str_int p') (cart_of w)
  /\ w_products (exec (add_to_cart p form) w) = w_products w
  /\ w_products (exec (api_add_to_cart post) w) = w_products w
  /\ w_users (exec (add_to_cart p form) w) = w_users w
  /\ w_users (exec (api_add_to_cart post) w) = w_users w.
Proof.
  intros Hne post. subst post.
  assert (Hkey : py_str_int p <> py_str_int p')
    by (intros E; apply Hne; now apply py_str_int_inj).
  assert (Hadded : forall product q,
             w_products (snd (added product w q)) = w_products w
             /\ w_users (snd (added product w q)) = w_users w)
    by (intros product [c|e]; split; reflexivity).
  unfold exec.
  destruct (query_get (w_products w) p) as [product|] eqn:Hp.
  - unfold api_add_to_cart, try_except.
    rewrite (api_add_to_cart_body_found w p quantity product Hp).
    pose proof (added_keeps_other_lines _ _ product
                  (get_default quantity (PyInt 1)) w Hkey) as Hapi.
    pose proof (Hadded product (cart_add (py_str_int p) product
                                  (get_default quantity (PyInt 1)) (cart_of w)))
      as [Hps Hus].
    destruct (py_int (form_get_quantity form)) as [q|e] eqn:Hq.
    + rewrite (add_to_cart_found w p q form product Hq Hp).
      pose proof (added_keeps_other_lines _ _ product (PyInt q) w Hkey) as Hleg.
      pose proof (Hadded product (cart_add (py_str_int p) product (PyInt q)
                                    (cart_of w))) as [Hps' Hus'].
      destruct (cart_add (py_str_int p) product (get_default quantity (PyInt 1))
                  (cart_of w)); repeat split; assumption.
    + unfold add_to_cart. run_handler. known Hq.
      destruct (cart_add (py_str_int p) product (get_default quantity (PyInt 1))
                  (cart_of w)); repeat split; assumption || reflexivity.
  - unfold api_add_to_cart, try_except.
    destruct (add_to_cart_missing w p form Hp) as [e He].
    destruct (api_add_to_cart_missing w p quantity Hp) as [e' He'].
    rewrite He, He'. repeat split; reflexivity.
Qed.

Lemma add_touches_one_line_witness :
  let w := world_with_cart [("2", apple_line (PyInt 2))] in
  let post := {| cp_product_id := Some 1; cp_quantity := Some (PyInt 4) |} in
  dict_get (py_str_int 2) (cart_of (exec (add_to_cart 1 (Some "4")) w))
  = Some (apple_line (PyInt 2))
  /\ dict_get (py_str_int 2) (cart_of (exec (api_add_to_cart post) w))
     = Some (apple_line (PyInt 2)).
Proof.
  intros w post.
  pose proof (add_touches_one_line w 1 2 (Some "4") (Some (PyInt 4))
                ltac:(discriminate)) as H.
  split; [exact (proj1 H) | exact (proj1 (proj2 H))].
Defined.

(** ** The two cart views agree *)

(** When every line of the cart resolves in the catalog (the keys being
    decimal texts) and has a number with a float value as quantity, the page
    [/cart] and [GET /api/cart] report the same total, and the API lists as
    many items as the page shows lines. *)
Theorem cart_views_agree (w : world) (xs : list float) :
  decimal_keys (cart_of w) ->
  resolvable (w_products w) (cart_of w) = cart_of w ->
  amounts_of (dict_values (cart_of w)) = Some xs ->
  exists items,
    eval view_cart w = Ok (CartPage (dict_values (cart_of w)) (float_total xs))
    /\ field "total" (match eval api_get_cart w with
                      | Ok r => r
                      | Raise _ => Redirect ""
                      end) = Some (float_total xs)
    /\ field "items" (match eval api_get_cart w with
                      | Ok r => r
                      | Raise _ => Redirect ""
                      end) = Some (PyList items)
    /\ length items = length (dict_values (cart_of w)).
Proof.
  intros Hkeys Hall Hxs.
  exists (expected_entries (cart_of w) xs).
  unfold eval. rewrite view_cart_run, (py_sum_amounts _ _ Hxs).
  rewrite api_get_cart_run.
  assert (Hxs' : amounts_of (dict_values (resolvable (w_products w) (cart_of w)))
                 = Some xs) by now rewrite Hall.
  rewrite (api_get_cart_loop_start _ _
             (resolving_keys_readable _ _ Hall) xs Hxs'), Hall.
  repeat split.
  rewrite expected_entries_length.
  - unfold dict_values. now rewrite length_map.
  - rewrite (amounts_of_length _ _ Hxs). unfold dict_values. apply length_map.
Qed.

Lemma cart_views_agree_witness :
  let w := world_with_cart [("1", tomato_line (PyInt 5));
                            ("2", apple_line (PyInt 2))] in
  exists items,
    eval view_cart w
    = Ok (CartPage [tomato_line (PyInt 5); apple_line (PyInt 2)]
            (PyFloat (0 + 3.99 * 5 + 2.49 * 2)%float))
    /\ field "total" (match eval api_get_cart w with
                      | Ok r => r
                      | Raise _ => Redirect ""
                      end) = Some (PyFloat (0 + 3.99 * 5 + 2.49 * 2)%float)
    /\ field "items" (match eval api_get_cart w with
                      | Ok r => r
                      | Raise _ => Redirect ""
                      end) = Some (PyList items)
    /\ length items = 2%nat.
Proof.
  intros w.
  refine (cart_views_agree w [(3.99 * 5)%float; (2.49 * 2)%float] _ eq_refl eq_refl).
  repeat constructor; simpl; eexists; vm_compute; reflexivity.
Defined.

(** ** The cart is a snapshot *)

(** Creating, updating or deleting a product, whatever the payload and
    whatever the outcome, leaves the session as it was: [/cart] shows the
    same lines, with the names and prices they were added with, and the same
    total, before and after. *)
Theorem catalog_changes_keep_cart_page
    (float_of_str : string -> option float) (w : world) (id : Z)
    (data : product_payload) :
  let post := exec (api_add_product float_of_str data) w in
  let put := exec (api_update_product float_of_str id data) w in
  let delete := exec (api_delete_product id) w in
  (w_session post = w_session w /\ eval view_cart post = eval view_cart w)
  /\ (w_session put = w_session w /\ eval view_cart put = eval view_cart w)
  /\ (w_session delete = w_session w /\ eval view_cart delete = eval view_cart w).
Proof.
  intros post put delete.
  destruct (product_routes_keep_session float_of_str w id data)
    as (Hpost & Hput & Hdelete).
  assert (Hview : forall w', w_session w' = w_session w ->
                             eval view_cart w' = eval view_cart w).
  { intros w' Hs. unfold eval. rewrite !view_cart_run.
    unfold cart_of. rewrite Hs.
    destruct (py_sum _); reflexivity. }
  repeat split; try assumption; now apply Hview.
Qed.

(** The first row is renamed and repriced while five tomatoes are in the
    cart: the page still shows the name and the price of the add. *)
Example repriced_product_keeps_cart_line :
  let w := world_with_cart [("1", tomato_line (PyInt 5))] in
  let data :=
    {| pp_name := Some "Vine Tomatoes"; pp_category := Some "Vegetables";
       pp_price := Some (PyFloat 4.49); pp_image := None;
       pp_description := None; pp_stock := None; pp_origin := None |} in
  let w' := exec (api_update_product no_float_text 1 data) w in
  option_map p_name (query_get (w_products w') 1) = Some "Vine Tomatoes"
  /\ eval view_cart w'
     = Ok (CartPage [tomato_line (PyInt 5)] (PyFloat (0 + 3.99 * 5)%float)).
Proof.
  split; vm_compute; reflexivity.
Qed.

(** ** The product table *)

Lemma fresh_key_above (ids : list Z) (z : Z) : In z ids -> z < fresh_key ids.
Proof.
  unfold fresh_key. induction ids as [|y rest IH]; cbn [fold_right In]; [tauto|].
  intros [->|H]; [lia | specialize (IH H); lia].
Qed.

Lemma fresh_key_new (ids : list Z) : ~ In (fresh_key ids) ids.
Proof. intros H. apply fresh_key_above in H. lia. Qed.

Lemma next_id_fresh_key (ps : list Product) : next_id ps = fresh_key (map p_id ps).
Proof.
  unfold next_id, fresh_key. f_equal.
  induction ps as [|p rest IH]; simpl; [reflexivity | now rewrite IH].
Qed.

Lemma replace_keeps_keys (ps : list Product) (row : Product) (k : Z) :
  p_id row = k ->
  map p_id (map (fun q => if p_id q =? k then row else q) ps) = map p_id ps.
Proof.
  intros <-. induction ps as [|p rest IH]; simpl; [reflexivity|].
  rewrite IH. destruct (Z.eqb_spec (p_id p) (p_id row)) as [E|E]; congruence.
Qed.

Lemma delete_keeps_NoDup (ps : list Product) (gone : Z) :
  NoDup (map p_id ps) ->
  NoDup (map p_id (filter (fun q => negb (p_id q =? gone)) ps)).
Proof.
  induction ps as [|p rest IH]; simpl; [trivial|].
  intros H. inversion H as [|? ? Hnin Hnd]; subst.
  destruct (p_id p =? gone); simpl; [now apply IH|].
  constructor; [|now apply IH].
  intros Hin. apply Hnin. apply in_map_iff in Hin as (x & Hx & Hin).
  apply filter_In in Hin as [Hin _]. apply in_map_iff. now exists x.
Qed.

Lemma append_keeps_NoDup (ps : list Product) (row : Product) :
  ~ In (p_id row) (map p_id ps) ->
  NoDup (map p_id ps) -> NoDup (map p_id (ps ++ [row])).
Proof.
  intros Hnew Hnd. rewrite map_app. simpl.
  apply NoDup_app; [exact Hnd | repeat constructor; simpl; tauto |].
  intros x Hx [<-|[]]. contradiction.
Qed.

Section CatalogFacts.
Variable float_of_str : string -> option float.

Lemma api_add_product_run (w : world) (data : product_payload)
    (name category : string) (v : pyval) (price : float) (stock : option Z) :
  pp_name data = Some name ->
  pp_category data = Some category ->
  pp_price data = Some v ->
  py_float float_of_str v = Ok price ->
  optional_stock (pp_stock data) = Ok stock ->
  storable_stock stock = true ->
  api_add_product float_of_str data w
  = (Ok (Json 200 (PyDict [("success", PyBool true);
                           ("message", PyStr "Product added successfully!");
                           ("id", PyInt (next_id (w_products w)))])),
     with_products
       (w_products w
        ++ [{| p_id := next_id (w_products w); p_name := name;
               p_category := category; p_price := price;
               p_image := get_default (pp_image data) default_image;
               p_seller_id := Some (get_default (s_user (w_session w)) 1);
               p_description := get_default (pp_description data) "";
               p_stock := get_default stock 0;
               p_origin := get_default (pp_origin data) "" |}]) w).
Proof.
  intros Hn Hc Hp Hf Hs Hst.
  assert (Hrange : sqlite_integer (get_default stock 0) = true)
    by (destruct stock; [exact Hst | reflexivity]).
  unfold api_add_product, api_add_product_body, session_get_user, db_insert.
  run_handler. known Hn. known Hc. known Hp. known Hf. known Hs.
  cbn [p_stock]. rewrite Hrange. reflexivity.
Qed.

Lemma api_update_product_run (w : world) (id : Z) (data : product_payload)
    (old : Product) (name category : string) (v : pyval) (price : float)
    (stock : option Z) :
  query_get (w_products w) id = Some old ->
  pp_name data = Some name ->
  pp_category data = Some category ->
  pp_price data = Some v ->
  py_float float_of_str v = Ok price ->
  optional_stock (pp_stock data) = Ok stock ->
  sqlite_integer (get_default stock (p_stock old)) = true ->
  api_update_product float_of_str id data w
  = (Ok (Json 200 (PyDict [("success", PyBool true);
                           ("message", PyStr "Product updated successfully!")])),
     with_products
       (map (fun q => if p_id q =? p_id old
                      then updated_row old name category price data stock
                      else q) (w_products w)) w).
Proof.
  intros Ho Hn Hc Hp Hf Hs Hrange.
  unfold api_update_product, api_update_product_body, db_update.
  run_handler. known Ho. known Hn. known Hc. known Hp. known Hf. known Hs.
  cbn [p_stock]. rewrite Hrange. reflexivity.
Qed.

(** [POST /api/products] with a name, a category, a price that [float]
    accepts and that is above zero, and, if given, a stock that [int] reads
    and the database can store, the table having a key left for one more
    row: the answer carries a key that no row had; the table is the old one
    followed by the new row, which holds what was sent, the documented
    defaults for what was not, and the session's user, or 1, as seller;
    looking up the new key finds the new row, looking up any other key finds
    what it found before; and distinct keys stay distinct. *)
Theorem post_product_appends_fresh_row
    (w : world) (data : product_payload) (name category : string)
    (v : pyval) (price : float) (stock : option Z) :
  pp_name data = Some name ->
  pp_category data = Some category ->
  pp_price data = Some v ->
  py_float float_of_str v = Ok price ->
  PrimFloat.ltb 0 price = true ->
  value_within_limit (pp_stock data) = true ->
  optional_stock (pp_stock data) = Ok stock ->
  storable_stock stock = true ->
  sqlite_integer (next_id (w_products w)) = true ->
  let ps := w_products w in
  let row :=
    {| p_id := next_id ps; p_name := name; p_category := category;
       p_price := price;
       p_image := get_default (pp_image data) default_image;
       p_seller_id := Some (get_default (s_user (w_session w)) 1);
       p_description := get_default (pp_description data) "";
       p_stock := get_default stock 0;
       p_origin := get_default (pp_origin data) "" |} in
  let w' := with_products (ps ++ [row]) w in
  api_add_product float_of_str data w
  = (Ok (Json 200 (PyDict [("success", PyBool true);
                           ("message", PyStr "Product added successfully!");
                           ("id", PyInt (next_id ps))])), w')
  /\ ~ In (next_id ps) (map p_id ps)
  /\ query_get (w_products w') (next_id ps) = Some row
  /\ (forall id, id <> next_id ps ->
                 query_get (w_products w') id = query_get ps id)
  /\ (NoDup (map p_id ps) -> NoDup (map p_id (w_products w'))).
Proof.
  intros Hn Hc Hp Hf _ _ Hs Hst Hkey ps row w'.
  assert (Hnew : ~ In (next_id ps) (map p_id ps))
    by (rewrite next_id_fresh_key; apply fresh_key_new).
  split; [exact (api_add_product_run w data name category v price stock
                   Hn Hc Hp Hf Hs Hst)|].
  split; [exact Hnew|]. subst w'. cbn [w_products with_products].
  split; [|split].
  - rewrite query_get_app.
    rewrite (query_get_none _ _ Hnew). subst row. cbn [p_id].
    subst ps. now rewrite Hkey, Z.eqb_refl.
  - intros id Hid. rewrite query_get_app.
    destruct (query_get ps id); [reflexivity|].
    subst row. cbn [p_id].
    destruct (Z.eqb_spec (next_id ps) id); [congruence|].
    now rewrite Bool.andb_false_r.
  - now apply append_keeps_NoDup.
Qed.

(** [PUT /api/products/id] for a row that exists, with a name, a category,
    a price that [float] accepts and that is above zero, and, if given, a
    stock that [int] reads, the stock the row gets being one the database
    can store: the row keeps its key and its seller, takes the three
    required fields from the payload, and takes image, description, stock
    and origin from the payload only where it has them; looking up [id]
    finds that row, looking up any other key finds what it found before, and
    the keys of the table, in order, are the same. *)
Theorem put_product_updates_one_row
    (w : world) (id : Z) (data : product_payload) (old : Product)
    (name category : string) (v : pyval) (price : float) (stock : option Z) :
  query_get (w_products w) id = Some old ->
  pp_name data = Some name ->
  pp_category data = Some category ->
  pp_price data = Some v ->
  py_float float_of_str v = Ok price ->
  PrimFloat.ltb 0 price = true ->
  value_within_limit (pp_stock data) = true ->
  optional_stock (pp_stock data) = Ok stock ->
  sqlite_integer (get_default stock (p_stock old)) = true ->
  let row := updated_row old name category price data stock in
  let w' := exec (api_update_product float_of_str id data) w in
  eval (api_update_product float_of_str id data) w
  = Ok (Json 200 (PyDict [("success", PyBool true);
                          ("message", PyStr "Product updated successfully!")]))
  /\ query_get (w_products w') id = Some row
  /\ (forall id', id' <> id ->
                  query_get (w_products w') id' = query_get (w_products w) id')
  /\ map p_id (w_products w') = map p_id (w_products w)
  /\ p_id row = id /\ p_seller_id row = p_seller_id old
  /\ (pp_image data = None -> p_image row = p_image old)
  /\ (pp_description data = None -> p_description row = p_description old)
  /\ (pp_stock data = None -> p_stock row = p_stock old)
  /\ (pp_origin data = None -> p_origin row = p_origin old).
Proof.
  intros Ho Hn Hc Hp Hf _ _ Hs Hrange row w'. subst w'. unfold eval, exec.
  rewrite (api_update_product_run w id data old name category v price stock
             Ho Hn Hc Hp Hf Hs Hrange).
  cbn [fst snd w_products with_products].
  destruct (query_get_some _ _ _ Ho) as (_ & Hid & _).
  assert (Hrow : p_id row = p_id old) by reflexivity.
  split; [reflexivity|]. split; [|split; [|split]].
  - rewrite (query_get_replace _ row (p_id old) id Hrow).
    rewrite Hid, Z.eqb_refl, Ho. reflexivity.
  - intros id' Hne. rewrite (query_get_replace _ row (p_id old) id' Hrow).
    rewrite Hid. destruct (Z.eqb_spec id id'); [congruence | reflexivity].
  - exact (replace_keeps_keys _ row (p_id old) Hrow).
  - split; [exact Hid|]. split; [reflexivity|].
    subst row. unfold updated_row. cbn.
    repeat split; try (intros ->; reflexivity).
    intros Hnone. rewrite Hnone in Hs. cbn in Hs. now injection Hs as <-.
Qed.

(** [DELETE /api/products/id] for a row that exists: the answer names the
    product; afterwards no row has the key [id], looking up any other key
    finds what it found before, distinct keys stay distinct, and a second
    delete or an update of [id] answers 400 with the 404 text and writes
    nothing. *)
Theorem delete_product_removes_row
    (w : world) (id : Z) (old : Product) (data : product_payload) :
  query_get (w_products w) id = Some old ->
  let w' := exec (api_delete_product id) w in
  eval (api_delete_product id) w
  = Ok (Json 200
          (PyDict [("success", PyBool true);
                   ("message",
                    PyStr ("Product " ++ dquote ++ p_name old ++ dquote
                           ++ " deleted successfully!")%string)]))
  /\ query_get (w_products w') id = None
  /\ (forall id', id' <> id ->
                  query_get (w_products w') id' = query_get (w_products w) id')
  /\ (NoDup (map p_id (w_products w)) -> NoDup (map p_id (w_products w')))
  /\ api_delete_product id w' = (Ok (Json 400 (error_body not_found)), w')
  /\ api_update_product float_of_str id data w'
     = (Ok (Json 400 (error_body not_found)), w').
Proof.
  intros Ho w'.
  destruct (query_get_some _ _ _ Ho) as (_ & Hid & Hrange).
  assert (Hrun : api_delete_product id w
                 = (Ok (Json 200
                          (PyDict [("success", PyBool true);
                                   ("message",
                                    PyStr ("Product " ++ dquote ++ p_name old
                                           ++ dquote
                                           ++ " deleted successfully!")%string)])),
                    with_products
                      (filter (fun q => negb (p_id q =? id)) (w_products w)) w)).
  { unfold api_delete_product, api_delete_product_body, db_delete.
    run_handler. known Ho. now rewrite Hid. }
  assert (Hgone : query_get (w_products w') id = None).
  { subst w'. unfold exec. rewrite Hrun. cbn [snd w_products with_products].
    now rewrite query_get_delete, Z.eqb_refl. }
  split; [unfold eval; now rewrite Hrun|]. split; [exact Hgone|].
  split; [|split; [|split]].
  - intros id' Hne. subst w'. unfold exec. rewrite Hrun.
    cbn [snd w_products with_products]. rewrite query_get_delete.
    destruct (Z.eqb_spec id id'); [congruence | reflexivity].
  - intros Hnd. subst w'. unfold exec. rewrite Hrun.
    cbn [snd w_products with_products]. now apply delete_keeps_NoDup.
  - unfold api_delete_product, api_delete_product_body. run_handler.
    now rewrite Hgone, Hrange.
  - unfold api_update_product, api_update_product_body. run_handler.
    now rewrite Hgone, Hrange.
Qed.

(** Each of the three routes that write the product table either answers
    200, or answers 400 with the text of an exception and leaves the world
    exactly as it was: a payload that is refused writes nothing, not even
    the fields that came before the one at fault. *)
Theorem product_write_all_or_nothing
    (w : world) (id : Z) (data : product_payload) :
  let outcome (m : M response) :=
    (exists body, eval m w = Ok (Json 200 body))
    \/ (exists e, m w = (Ok (Json 400 (error_body e)), w)) in
  outcome (api_add_product float_of_str data)
  /\ outcome (api_update_product float_of_str id data)
  /\ outcome (api_delete_product id).
Proof.
  intros outcome. subst outcome. cbv beta.
  unfold api_add_product, api_add_product_body, api_update_product,
    api_update_product_body, api_delete_product, api_delete_product_body,
    session_get_user, db_insert, db_update, db_delete.
  run_handler. repeat split.
  - destruct (pp_name data); cbn [fst snd]; [|right; eexists; reflexivity].
    destruct (pp_category data); cbn [fst snd]; [|right; eexists; reflexivity].
    destruct (pp_price data) as [v|]; cbn [fst snd]; [|right; eexists; reflexivity].
    destruct (py_float float_of_str v); cbn [fst snd]; [|right; eexists; reflexivity].
    destruct (optional_stock (pp_stock data)); cbn [fst snd];
      [|right; eexists; reflexivity].
    destruct (sqlite_integer _); cbn [fst snd];
      [left | right]; eexists; reflexivity.
  - destruct (query_get (w_products w) id); cbn [fst snd];
      [|destruct (sqlite_integer id); right; eexists; reflexivity].
    destruct (pp_name data); cbn [fst snd]; [|right; eexists; reflexivity].
    destruct (pp_category data); cbn [fst snd]; [|right; eexists; reflexivity].
    destruct (pp_price data) as [v|]; cbn [fst snd]; [|right; eexists; reflexivity].
    destruct (py_float float_of_str v); cbn [fst snd]; [|right; eexists; reflexivity].
    destruct (optional_stock (pp_stock data)); cbn [fst snd];
      [|right; eexists; reflexivity].
    destruct (sqlite_integer _); cbn [fst snd];
      [left | right]; eexists; reflexivity.
  - destruct (query_get (w_products w) id); cbn [fst snd];
      [left | destruct (sqlite_integer id); right]; eexists; reflexivity.
Qed.

End CatalogFacts.

Lemma post_product_appends_fresh_row_witness :
  let data :=
    {| pp_name := Some "Pears"; pp_category := Some "Fruits";
       pp_price := Some (PyInt 2); pp_image := None;
       pp_description := None; pp_stock := Some (PyStr "12");
       pp_origin := Some "Swat" |} in
  let row :=
    {| p_id := 7; p_name := "Pears"; p_category := "Fruits"; p_price := 2;
       p_image := default_image; p_seller_id := Some 1; p_description := "";
       p_stock := 12; p_origin := "Swat" |} in
  py_float no_float_text (PyInt 2) = Ok 2%float
  /\ optional_stock (Some (PyStr "12")) = Ok (Some 12)
  /\ api_add_product no_float_text data initial_world
     = (Ok (Json 200 (PyDict [("success", PyBool true);
                              ("message", PyStr "Product added successfully!");
                              ("id", PyInt 7)])),
        with_products (sample_products ++ [row]) initial_world).
Proof.
  intros data row. split; [reflexivity | split; [reflexivity|]].
  exact (proj1 (post_product_appends_fresh_row no_float_text initial_world data
                  "Pears" "Fruits" (PyInt 2) 2%float (Some 12)
                  eq_refl eq_refl eq_refl eq_refl eq_refl eq_refl eq_refl
                  eq_refl eq_refl)).
Defined.

(** A stock of 2^63 is more than the database stores: the commit fails, the
    answer is 400 with the text of the driver's exception, and no row is
    written.  So for [PUT]. *)
Example product_stock_out_of_range :
  let data :=
    {| pp_name := Some "Pears"; pp_category := Some "Fruits";
       pp_price := Some (PyInt 2); pp_image := None;
       pp_description := None; pp_stock := Some (PyInt (2 ^ 63));
       pp_origin := None |} in
  let refused :=
    (Ok (Json 400
           (PyDict [("success", PyBool false);
                    ("error",
                     PyStr "Python int too large to convert to SQLite INTEGER")])),
     initial_world) in
  api_add_product no_float_text data initial_world = refused
  /\ api_update_product no_float_text 1 data initial_world = refused.
Proof.
  split; vm_compute; reflexivity.
Qed.

Lemma put_product_updates_one_row_witness :
  let data :=
    {| pp_name := Some "Vine Tomatoes"; pp_category := Some "Vegetables";
       pp_price := Some (PyFloat 4.49); pp_image := None;
       pp_description := None; pp_stock := Some (PyInt 10);
       pp_origin := None |} in
  let w' := exec (api_update_product no_float_text 1 data) initial_world in
  query_get (w_products w') 1
  = Some {| p_id := 1; p_name := "Vine Tomatoes"; p_category := "Vegetables";
            p_price := 4.49;
            p_image := "https://images.unsplash.com/photo-1546470427-e212d4d25323?w=400";
            p_seller_id := None;
            p_description :=
              "Fresh organic tomatoes grown without pesticides, perfect for salads and cooking.";
            p_stock := 10; p_origin := "" |}
  /\ map p_id (w_products w') = [1; 2; 3; 4; 5; 6].
Proof.
  intros data w'.
  pose proof (put_product_updates_one_row no_float_text initial_world 1 data
                (sample 1 "Organic Tomatoes" "Vegetables" 3.99
                   "https://images.unsplash.com/photo-1546470427-e212d4d25323?w=400"
                   "Fresh organic tomatoes grown without pesticides, perfect for salads and cooking."
                   50)
                "Vine Tomatoes" "Vegetables" (PyFloat 4.49) 4.49%float (Some 10)
                eq_refl eq_refl eq_refl eq_refl eq_refl eq_refl eq_refl
                eq_refl eq_refl) as H.
  split; [exact (proj1 (proj2 H)) | exact (proj1 (proj2 (proj2 (proj2 H))))].
Defined.

Lemma delete_product_removes_row_witness :
  let w' := exec (api_delete_product 6) initial_world in
  map p_id (w_products w') = [1; 2; 3; 4; 5]
  /\ query_get (w_products w') 6 = None
  /\ api_delete_product 6 w' = (Ok (Json 400 (error_body not_found)), w').
Proof.
  intros w'. split; [reflexivity|].
  pose proof (delete_product_removes_row no_float_text initial_world 6
                (sample 6 "Garden Shovel" "Farm Tools" 24.99
                   "https://images.unsplash.com/photo-1572984334707-0c0df46957a9?w=400"
                   "Durable steel garden shovel perfect for all your farming needs."
                   15)
                {| pp_name := None; pp_category := None; pp_price := None;
                   pp_image := None; pp_description := None; pp_stock := None;
                   pp_origin := None |} eq_refl) as H.
  split; [exact (proj1 (proj2 H)) | exact (proj1 (proj2 (proj2 (proj2 (proj2 H)))))].
Defined.

(** ** Accounts *)

Lemma first_by_email_some (users : list User) (email : string) (u : User) :
  first_by_email users email = Some u -> In u users /\ u_email u = email.
Proof.
  unfold first_by_email. intros H. apply find_some in H as [Hin H].
  split; [assumption | now apply String.eqb_eq].
Qed.

Lemma first_by_email_none (users : list User) (email : string) :
  first_by_email users email = None <-> ~ In email (map u_email users).
Proof.
  unfold first_by_email. induction users as [|u rest IH]; simpl; [tauto|].
  destruct (String.eqb_spec (u_email u) email) as [E|E].
  - split; [discriminate | intros H; exfalso; apply H; now left].
  - rewrite IH. tauto.
Qed.

Lemma first_by_email_app (users : list User) (u : User) (email : string) :
  first_by_email (users ++ [u]) email
  = match first_by_email users email with
    | Some x => Some x
    | None => if String.eqb (u_email u) email then Some u else None
    end.
Proof.
  unfold first_by_email. induction users as [|x rest IH]; simpl; [reflexivity|].
  destruct (String.eqb (u_email x) email); [reflexivity | exact IH].
Qed.

Section RegisterFacts.
Variable validate_register : string -> string -> string -> bool.
Variable generate_password_hash : string -> string -> string.

Lemma register_existing (w : world) (name email password salt : string)
    (existing : User) :
  validate_register name email password = true ->
  first_by_email (w_users w) email = Some existing ->
  register validate_register generate_password_hash name email password salt w
  = (Ok (Answer (Redirect "login")),
     with_session
       (add_flash "Email already registered. Please log in." (w_session w)) w).
Proof.
  intros Hv He. unfold register. rewrite Hv.
  unfold bind, all_users, flash, redirect, ret. cbn [fst snd].
  now rewrite He.
Qed.

Lemma register_new (w : world) (name email password salt : string) :
  validate_register name email password = true ->
  first_by_email (w_users w) email = None ->
  register validate_register generate_password_hash name email password salt w
  = (Ok (Answer (Redirect "login")),
     with_session
       (add_flash "Account created successfully!" (w_session w))
       (with_users
          (w_users w
           ++ [{| u_id := fresh_key (map u_id (w_users w)); u_name := name;
                  u_email := email;
                  u_password := generate_password_hash salt password;
                  u_role := "user" |}]) w)).
Proof.
  intros Hv He. unfold register. rewrite Hv.
  unfold bind, all_users, flash, redirect, db_insert_user, ret. cbn [fst snd].
  now rewrite He.
Qed.

(** A valid registration with an email no user has stores exactly one new
    user: a key no user had, the name and email given, the hash of the
    password, the role "user"; the emails of the table stay distinct.  A
    later valid registration with the same email, whatever else it gives,
    stores nothing and sends to the login page with the message that the
    email is taken. *)
Theorem register_once_per_email
    (w : world) (name email password salt name' password' salt' : string) :
  validate_register name email password = true ->
  validate_register name' email password' = true ->
  first_by_email (w_users w) email = None ->
  let new :=
    {| u_id := fresh_key (map u_id (w_users w)); u_name := name;
       u_email := email; u_password := generate_password_hash salt password;
       u_role := "user" |} in
  let once :=
    exec (register validate_register generate_password_hash
            name email password salt) w in
  let again :=
    register validate_register generate_password_hash
      name' email password' salt' once in
  w_users once = w_users w ++ [new]
  /\ ~ In (u_id new) (map u_id (w_users w))
  /\ (NoDup (map u_email (w_users w)) -> NoDup (map u_email (w_users once)))
  /\ fst again = Ok (Answer (Redirect "login"))
  /\ w_users (snd again) = w_users once
  /\ s_flashes (w_session (snd again))
     = s_flashes (w_session w)
       ++ ["Account created successfully!";
           "Email already registered. Please log in."].
Proof.
  intros Hv Hv' Hnone new once again. subst again once. unfold exec.
  rewrite (register_new w name email password salt Hv Hnone). cbn [snd].
  fold new.
  assert (Hfound : first_by_email (w_users w ++ [new]) email = Some new).
  { rewrite first_by_email_app, Hnone. subst new. cbn [u_email].
    now rewrite String.eqb_refl. }
  rewrite (register_existing _ name' email password' salt' new Hv')
    by exact Hfound.
  cbn [fst snd w_users w_session with_session with_users s_flashes add_flash].
  repeat split.
  - apply fresh_key_new.
  - intros Hnd. rewrite map_app. cbn [map u_email new].
    apply NoDup_app; [exact Hnd | repeat constructor; simpl; tauto |].
    intros x Hx [<-|[]]. now apply first_by_email_none in Hnone.
  - now rewrite <- app_assoc.
Qed.

End RegisterFacts.

Section AccountFacts.
Variable validate_on_submit : string -> string -> bool.
Variable check_password_hash : string -> string -> bool.
Variable validate_register : string -> string -> string -> bool.
Variable generate_password_hash : string -> string -> string.

(** Registering and then logging in with the same email and password, the
    hash check accepting every password against its own hash: the login
    succeeds, and the session names the new user, with the role "user". *)
Theorem register_then_login
    (w : world) (name email password salt : string) :
  (forall s pw, check_password_hash (generate_password_hash s pw) pw = true) ->
  validate_register name email password = true ->
  validate_on_submit email password = true ->
  first_by_email (w_users w) email = None ->
  let registered :=
    exec (register validate_register generate_password_hash
            name email password salt) w in
  let logged := login validate_on_submit check_password_hash email password
                  registered in
  fst logged = Ok (Redirect "home")
  /\ s_user (w_session (snd logged)) = Some (fresh_key (map u_id (w_users w)))
  /\ s_name (w_session (snd logged)) = Some name
  /\ s_role (w_session (snd logged)) = Some "user"
  /\ cart_of (snd logged) = cart_of w.
Proof.
  intros Hhash Hv Hl Hnone registered logged. subst logged registered.
  unfold exec.
  rewrite (register_new validate_register generate_password_hash
             w name email password salt Hv Hnone).
  cbn [snd]. unfold login. rewrite Hl.
  unfold bind, all_users, flash, set_session_principal, ret.
  cbn [fst snd w_users with_session with_users].
  rewrite first_by_email_app, Hnone. cbn [u_email].
  rewrite String.eqb_refl. cbn [u_password]. rewrite Hhash.
  repeat split.
Qed.

(** A login that passes: the session takes the identifier, name and role of
    the stored user and keeps its cart; from then on [/profile] shows the
    profile and [/admin] lists every user and every product, whatever the
    role of the user is. *)
Theorem login_opens_profile_and_admin
    (w : world) (email password : string) (u : User) :
  validate_on_submit email password = true ->
  first_by_email (w_users w) email = Some u ->
  check_password_hash (u_password u) password = true ->
  let logged := login validate_on_submit check_password_hash email password w in
  fst logged = Ok (Redirect "home")
  /\ s_user (w_session (snd logged)) = Some (u_id u)
  /\ s_name (w_session (snd logged)) = Some (u_name u)
  /\ s_role (w_session (snd logged)) = Some (u_role u)
  /\ cart_of (snd logged) = cart_of w
  /\ profile (snd logged) = (Ok (Page "profile.html"), snd logged)
  /\ admin_dashboard (snd logged)
     = (Ok (AdminPage (w_users w) (w_products w)), snd logged).
Proof.
  intros Hv Hu Hc logged. subst logged. unfold login. rewrite Hv.
  unfold bind, all_users, flash, set_session_principal, ret.
  cbn [fst snd]. rewrite Hu, Hc. repeat split.
Qed.

End AccountFacts.

(** Without a user in the session, [/profile] and [/admin] show nothing:
    each queues its message and sends to the login page, and nothing else
    of the world changes. *)
Theorem pages_closed_without_login (w : world) :
  s_user (w_session w) = None ->
  profile w
  = (Ok (Answer (Redirect "login")),
     with_session (add_flash "Please log in to view your profile." (w_session w)) w)
  /\ admin_dashboard w
     = (Ok (Answer (Redirect "login")),
        with_session (add_flash "Please log in as admin." (w_session w)) w).
Proof.
  intros Hnone. unfold profile, admin_dashboard, bind, session_user, flash,
    redirect, ret. cbn [fst snd]. rewrite Hnone. split; reflexivity.
Qed.

(** Logging out empties the session: no user, no cart, and of the queued
    messages only "Logged out successfully."; the catalog and the users
    stay.  Afterwards [/cart] shows no line and the total 0, and [/profile]
    sends to the login page. *)
Theorem logout_discards_session (w : world) :
  let out := exec logout w in
  eval logout w = Ok (Answer (Redirect "home"))
  /\ w_session out
     = {| s_user := None; s_name := None; s_role := None; s_cart := None;
          s_flashes := ["Logged out successfully."] |}
  /\ w_products out = w_products w /\ w_users out = w_users w
  /\ eval view_cart out = Ok (CartPage [] (PyInt 0))
  /\ eval profile out = Ok (Answer (Redirect "login")).
Proof.
  repeat split.
Qed.

Lemma register_once_per_email_witness :
  let once :=
    exec (register any_registration sample_hash
            "Bilal" "bilal@farm.example" "secret" "salt") world_with_user in
  let again :=
    register any_registration sample_hash
      "Other" "bilal@farm.example" "other" "pepper" once in
  first_by_email (w_users world_with_user) "bilal@farm.example" = None
  /\ w_users once
     = [farmer;
        {| u_id := 2; u_name := "Bilal"; u_email := "bilal@farm.example";
           u_password := "hash-of-secret"; u_role := "user" |}]
  /\ w_users (snd again) = w_users once.
Proof.
  intros once again. split; [reflexivity|].
  pose proof (register_once_per_email any_registration sample_hash
                world_with_user "Bilal" "bilal@farm.example" "secret" "salt"
                "Other" "other" "pepper" eq_refl eq_refl eq_refl) as H.
  split; [exact (proj1 H) | exact (proj1 (proj2 (proj2 (proj2 (proj2 H)))))].
Defined.

Lemma register_then_login_witness :
  let registered :=
    exec (register any_registration sample_hash
            "Bilal" "bilal@farm.example" "secret" "salt") world_with_user in
  let logged := login any_form sample_check "bilal@farm.example" "secret"
                  registered in
  fst logged = Ok (Redirect "home")
  /\ s_user (w_session (snd logged)) = Some 2
  /\ s_name (w_session (snd logged)) = Some "Bilal"
  /\ s_role (w_session (snd logged)) = Some "user"
  /\ cart_of (snd logged) = [].
Proof.
  refine (register_then_login any_form sample_check any_registration sample_hash
            world_with_user "Bilal" "bilal@farm.example" "secret" "salt"
            _ eq_refl eq_refl eq_refl).
  intros s pw. unfold sample_check, sample_hash. apply String.eqb_refl.
Defined.

Lemma login_opens_profile_and_admin_witness :
  let logged := login any_form sample_check "asha@farm.example" "secret"
                  world_with_user in
  u_role farmer = "user"
  /\ fst logged = Ok (Redirect "home")
  /\ s_user (w_session (snd logged)) = Some 1
  /\ admin_dashboard (snd logged)
     = (Ok (AdminPage [farmer] sample_products), snd logged).
Proof.
  intros logged. split; [reflexivity|].
  pose proof (login_opens_profile_and_admin any_form sample_check
                world_with_user "asha@farm.example" "secret" farmer
                eq_refl eq_refl eq_refl) as H.
  split; [exact (proj1 H)|].
  split; [exact (proj1 (proj2 H))|].
  exact (proj2 (proj2 (proj2 (proj2 (proj2 (proj2 H)))))).
Defined.

Lemma pages_closed_without_login_witness :
  s_user (w_session initial_world) = None
  /\ profile initial_world
     = (Ok (Answer (Redirect "login")),
        with_session
          (add_flash "Please log in to view your profile."
             (w_session initial_world)) initial_world)
  /\ admin_dashboard initial_world
     = (Ok (Answer (Redirect "login")),
        with_session
          (add_flash "Please log in as admin." (w_session initial_world))
          initial_world).
Proof.
  split; [reflexivity | exact (pages_closed_without_login initial_world eq_refl)].
Defined.

(** ** The forum *)

(** A logged-in session posting a title and a content that are not empty
    adds exactly one row after the others: a key no post had, the title and
    content given, the session's user as author, the clock as date;
    [/forum] then shows the old posts followed by the new one. *)
Theorem add_post_appends_one
    (s : site) (uid : Z) (title content : string) (now : Z) :
  s_user (w_session (site_world s)) = Some uid ->
  title <> "" -> content <> "" ->
  let post :=
    {| fp_id := fresh_key (map fp_id (site_posts s)); fp_title := title;
       fp_content := content; fp_user_id := uid; fp_created_at := now |} in
  let s' := snd (add_post (Some title) (Some content) now s) in
  fst (add_post (Some title) (Some content) now s)
  = Ok (Answer (Redirect "forum"))
  /\ site_posts s' = site_posts s ++ [post]
  /\ ~ In (fp_id post) (map fp_id (site_posts s))
  /\ forum s' = (Ok (ForumPage (site_posts s ++ [post])), s')
  /\ site_world s'
     = with_session
         (add_flash "Post added successfully!" (w_session (site_world s)))
         (site_world s).
Proof.
  intros Hu Ht Hc post s'. subst s' post. unfold add_post. rewrite Hu.
  destruct title as [|a title]; [contradiction|].
  destruct content as [|b content]; [contradiction|].
  cbn. repeat split. apply fresh_key_new.
Qed.

Lemma add_post_appends_one_witness :
  let s' := snd (add_post (Some "Blight") (Some "How to treat it?") 1700000000
                   site_with_farmer) in
  s_user (w_session (site_world site_with_farmer)) = Some 1
  /\ site_posts s'
     = [{| fp_id := 1; fp_title := "Blight"; fp_content := "How to treat it?";
           fp_user_id := 1; fp_created_at := 1700000000 |}].
Proof.
  intros s'. split; [reflexivity|].
  refine (proj1 (proj2 (add_post_appends_one site_with_farmer 1 "Blight"
                          "How to treat it?" 1700000000 eq_refl _ _)));
    discriminate.
Defined.

(** Without a user in the session, or with a title or a content that is
    missing or empty, [/add_post] stores nothing: the posts are the same,
    and so are the catalog, the users and the cart. *)
Theorem add_post_requires_login_and_text
    (s : site) (title content : option string) (now : Z) :
  s_user (w_session (site_world s)) = None
  \/ truthy title = false \/ truthy content = false ->
  let s' := snd (add_post title content now s) in
  site_posts s' = site_posts s
  /\ w_products (site_world s') = w_products (site_world s)
  /\ w_users (site_world s') = w_users (site_world s)
  /\ cart_of (site_world s') = cart_of (site_world s)
  /\ fst (add_post title content now s)
     = Ok (Answer (Redirect (match s_user (w_session (site_world s)) with
                             | Some _ => "forum"
                             | None => "login"
                             end))).
Proof.
  intros H s'. subst s'. unfold add_post.
  destruct (s_user (w_session (site_world s))) as [uid|].
  - destruct H as [H|[H|H]]; [discriminate| |];
      destruct title as [[|a t]|], content as [[|b c]|];
      try discriminate; repeat split.
  - repeat split.
Qed.

Lemma add_post_requires_login_and_text_witness :
  let s' := snd (add_post (Some "Blight") (Some "") 1700000000
                   site_with_farmer) in
  truthy (Some "") = false
  /\ site_posts s' = []
  /\ fst (add_post (Some "Blight") (Some "") 1700000000 site_with_farmer)
     = Ok (Answer (Redirect "forum")).
Proof.
  intros s'. split; [reflexivity|].
  pose proof (add_post_requires_login_and_text site_with_farmer
                (Some "Blight") (Some "") 1700000000
                (or_intror (or_intror eq_refl))) as H.
  split; [exact (proj1 H) | exact (proj2 (proj2 (proj2 (proj2 H))))].
Defined.

(** ** What every route keeps true *)

(** The cart routes change the cart of the session and nothing else. *)
Lemma cart_routes_change_cart_only (w : world) (p : Z) (form : option string)
    (data : cart_post) :
  let cart_only (w' : world) :=
    w' = w \/ exists c, w' = with_session (set_cart c (w_session w)) w in
  cart_only (exec (add_to_cart p form) w)
  /\ cart_only (exec view_cart w)
  /\ cart_only (exec (remove_from_cart p) w)
  /\ cart_only (exec api_get_cart w)
  /\ cart_only (exec (api_add_to_cart data) w)
  /\ cart_only (exec (api_remove_from_cart p) w).
Proof.
  intros cart_only. subst cart_only. cbv beta.
  assert (Hadded : forall product r,
             snd (added product w r) = w
             \/ exists c, snd (added product w r)
                          = with_session (set_cart c (w_session w)) w).
  { intros product [c|e]; [right; now exists c | now left]. }
  assert (Hremove : exec (remove_from_cart p) w = w
                    \/ exists c, exec (remove_from_cart p) w
                                 = with_session (set_cart c (w_session w)) w).
  { rewrite (proj1 (remove_run w p)).
    destruct (dict_get _ _); [right; eexists; reflexivity | now left]. }
  split; [|split; [|split; [|split; [|split]]]].
  - unfold exec.
    destruct (py_int (form_get_quantity form)) as [q|e] eqn:Hq.
    + destruct (query_get (w_products w) p) as [product|] eqn:Hp.
      * rewrite (add_to_cart_found w p q form product Hq Hp). apply Hadded.
      * left. destruct (add_to_cart_missing w p form Hp) as [e He].
        now rewrite He.
    + left. unfold add_to_cart. run_handler. now known Hq.
  - left. apply view_cart_frame.
  - exact Hremove.
  - left. apply api_get_cart_frame.
  - unfold exec. destruct data as [[p'|] quantity].
    + destruct (query_get (w_products w) p') as [product|] eqn:Hp.
      * unfold api_add_to_cart, try_except.
        rewrite (api_add_to_cart_body_found w p' quantity product Hp).
        destruct (Hadded product
                    (cart_add (py_str_int p') product
                       (get_default quantity (PyInt 1)) (cart_of w))) as [H|H];
          destruct (cart_add _ _ _ _); cbn [added snd] in *; auto.
      * left. unfold api_add_to_cart, try_except.
        destruct (api_add_to_cart_missing w p' quantity Hp) as [e He].
        now rewrite He.
    + now left.
  - now rewrite (proj2 (remove_run w p)).
Qed.

Section SiteFacts.
Variable float_of_str : string -> option float.
Variable validate_on_submit : string -> string -> bool.
Variable check_password_hash : string -> string -> bool.
Variable validate_register : string -> string -> string -> bool.
Variable generate_password_hash : string -> string -> string.

(** The product routes change the product table and nothing else, and keep
    its keys distinct. *)
Lemma product_routes_change_table_only (w : world) (id : Z)
    (data : product_payload) :
  let table_only (w' : world) :=
    w' = w
    \/ exists ps, w' = with_products ps w
                  /\ (NoDup (map p_id (w_products w)) -> NoDup (map p_id ps)) in
  table_only (exec (api_add_product float_of_str data) w)
  /\ table_only (exec (api_update_product float_of_str id data) w)
  /\ table_only (exec (api_delete_product id) w).
Proof.
  intros table_only. subst table_only. cbv beta.
  unfold api_add_product, api_add_product_body, api_update_product,
    api_update_product_body, api_delete_product, api_delete_product_body,
    session_get_user, db_insert, db_update, db_delete.
  run_handler. repeat split.
  - destruct (pp_name data); cbn [fst snd]; [|now left].
    destruct (pp_category data); cbn [fst snd]; [|now left].
    destruct (pp_price data) as [v|]; cbn [fst snd]; [|now left].
    destruct (py_float float_of_str v); cbn [fst snd]; [|now left].
    destruct (optional_stock (pp_stock data)); cbn [fst snd]; [|now left].
    destruct (sqlite_integer _); cbn [fst snd]; [|now left].
    right. eexists. split; [reflexivity|]. intros Hnd.
    apply append_keeps_NoDup; [|exact Hnd]. cbn [p_id].
    rewrite next_id_fresh_key. apply fresh_key_new.
  - destruct (query_get (w_products w) id) as [old|]; cbn [fst snd];
      [|destruct (sqlite_integer id); now left].
    destruct (pp_name data); cbn [fst snd]; [|now left].
    destruct (pp_category data); cbn [fst snd]; [|now left].
    destruct (pp_price data) as [v|]; cbn [fst snd]; [|now left].
    destruct (py_float float_of_str v); cbn [fst snd]; [|now left].
    destruct (optional_stock (pp_stock data)); cbn [fst snd]; [|now left].
    destruct (sqlite_integer _); cbn [fst snd]; [|now left].
    right. eexists. split; [reflexivity|]. intros Hnd. cbn [p_id].
    erewrite replace_keeps_keys; [exact Hnd | reflexivity].
  - destruct (query_get (w_products w) id) as [old|]; cbn [fst snd];
      [|destruct (sqlite_integer id); now left].
    right. eexists. split; [reflexivity|]. intros Hnd.
    now apply delete_keeps_NoDup.
Qed.

Lemma principal_kept (w w' : world) :
  w_users w' = w_users w ->
  s_user (w_session w') = s_user (w_session w) ->
  s_name (w_session w') = s_name (w_session w) ->
  s_role (w_session w') = s_role (w_session w) ->
  principal_stored w -> principal_stored w'.
Proof.
  intros Hu H1 H2 H3 Hp uid Huid. rewrite H1 in Huid.
  destruct (Hp uid Huid) as (u & Hin & Hid & Hn & Hr).
  exists u. rewrite Hu, H2, H3. auto.
Qed.

Lemma login_keeps_tables (w : world) (email password : string) :
  let w' := exec (login validate_on_submit check_password_hash email password) w in
  w_users w' = w_users w /\ w_products w' = w_products w
  /\ (principal_stored w -> principal_stored w').
Proof.
  intros w'. subst w'.
  unfold login, exec, bind, all_users, flash, set_session_principal, ret.
  destruct (validate_on_submit email password); cbn [fst snd]; [|auto].
  destruct (first_by_email (w_users w) email) as [u|] eqn:Hu; cbn [fst snd].
  - destruct (check_password_hash (u_password u) password); cbn [fst snd].
    + repeat split. intros _ uid Huid. cbn in Huid. injection Huid as <-.
      exists u. cbn. destruct (first_by_email_some _ _ _ Hu) as [Hin _]. auto.
    + repeat split. now apply principal_kept.
  - repeat split. now apply principal_kept.
Qed.

(** The routes of [request] leave the users alone, keep the keys of the
    product table distinct, and keep the session's user a stored one. *)
Lemma core_keeps_tables (rq : request) (w : world) :
  let w' := exec (serve float_of_str validate_on_submit check_password_hash rq) w in
  w_users w' = w_users w
  /\ (NoDup (map p_id (w_products w)) -> NoDup (map p_id (w_products w')))
  /\ (principal_stored w -> principal_stored w').
Proof.
  intros w'. subst w'.
  assert (Hcart : forall w',
             (w' = w \/ exists c, w' = with_session (set_cart c (w_session w)) w) ->
             w_users w' = w_users w
             /\ (NoDup (map p_id (w_products w)) -> NoDup (map p_id (w_products w')))
             /\ (principal_stored w -> principal_stored w')).
  { intros w' [->|[c ->]]; [auto|].
    repeat split; [auto|]. now apply principal_kept. }
  assert (Htable : forall w',
             (w' = w
              \/ exists ps, w' = with_products ps w
                            /\ (NoDup (map p_id (w_products w))
                                -> NoDup (map p_id ps))) ->
             w_users w' = w_users w
             /\ (NoDup (map p_id (w_products w)) -> NoDup (map p_id (w_products w')))
             /\ (principal_stored w -> principal_stored w')).
  { intros w' [->|(ps & -> & Hnd)]; [auto|].
    repeat split; [exact Hnd|]. now apply principal_kept. }
  destruct rq as [p form| |p|[data|id data|id| |data|p]|email password];
    cbn [serve api_route].
  - apply Hcart.
    exact (proj1 (cart_routes_change_cart_only w p form
                    {| cp_product_id := None; cp_quantity := None |})).
  - apply Hcart. left. apply view_cart_frame.
  - apply Hcart.
    exact (proj1 (proj2 (proj2 (cart_routes_change_cart_only w p None
                                  {| cp_product_id := None; cp_quantity := None |})))).
  - apply Htable. exact (proj1 (product_routes_change_table_only w 0 data)).
  - apply Htable.
    exact (proj1 (proj2 (product_routes_change_table_only w id data))).
  - apply Htable.
    exact (proj2 (proj2 (product_routes_change_table_only w id
                           {| pp_name := None; pp_category := None;
                              pp_price := None; pp_image := None;
                              pp_description := None; pp_stock := None;
                              pp_origin := None |}))).
  - apply Hcart. left. apply api_get_cart_frame.
  - apply Hcart.
    exact (proj1 (proj2 (proj2 (proj2 (proj2
             (cart_routes_change_cart_only w 0 None data)))))).
  - apply Hcart.
    exact (proj2 (proj2 (proj2 (proj2 (proj2
             (cart_routes_change_cart_only w p None
                {| cp_product_id := None; cp_quantity := None |})))))).
  - destruct (login_keeps_tables w email password) as (Hu & Hp & Hprin).
    repeat split; [exact Hu | now rewrite Hp | exact Hprin].
Qed.

End SiteFacts.

Section SiteInvariant.
Variable float_of_str : string -> option float.
Variable validate_on_submit : string -> string -> bool.
Variable check_password_hash : string -> string -> bool.
Variable validate_register : string -> string -> string -> bool.
Variable generate_password_hash : string -> string -> string.

(** A handler of the world that leaves the users alone keeps the invariant
    when it keeps the parts it can touch. *)
Lemma invariant_on_world (s : site) (w' : world) :
  site_invariant s ->
  cart_invariant w' ->
  NoDup (map p_id (w_products w')) ->
  w_users w' = w_users (site_world s) ->
  principal_stored w' ->
  site_invariant {| site_world := w'; site_posts := site_posts s |}.
Proof.
  intros (Hc & Hp & He & Hi & Hr & Hpr & Hf & Ha) Hc' Hp' Hu Hpr'.
  unfold site_invariant. cbn [site_world site_posts]. rewrite Hu.
  split; [exact Hc'|]. split; [exact Hp'|]. split; [exact He|].
  split; [exact Hi|]. split; [exact Hr|]. split; [exact Hpr'|].
  split; [exact Hf | exact Ha].
Qed.

(** A handler that only queues a message. *)
Lemma invariant_flash (s : site) (msg : string) :
  site_invariant s ->
  site_invariant
    {| site_world := with_session (add_flash msg (w_session (site_world s)))
                       (site_world s);
       site_posts := site_posts s |}.
Proof.
  intros Hinv. pose proof Hinv as (Hc & Hp & He & Hi & Hr & Hpr & Hf & Ha).
  apply invariant_on_world; try assumption; reflexivity.
Qed.

Lemma register_invariant (s : site) (name email password salt : string) :
  site_invariant s ->
  site_invariant
    (snd (on_world (register validate_register generate_password_hash
                      name email password salt) s)).
Proof.
  intros Hinv. pose proof Hinv as (Hc & Hp & He & Hi & Hr & Hpr & Hf & Ha).
  unfold on_world. cbn [snd].
  destruct (validate_register name email password) eqn:Hv.
  - destruct (first_by_email (w_users (site_world s)) email) as [u|] eqn:Hu.
    + rewrite (register_existing validate_register generate_password_hash
                 _ name email password salt u Hv Hu).
      cbn [snd]. now apply invariant_flash.
    + rewrite (register_new validate_register generate_password_hash
                 _ name email password salt Hv Hu).
      cbn [snd]. unfold site_invariant.
      cbn [site_world site_posts w_users w_products with_session with_users].
      rewrite !map_app. cbn [map u_email u_id].
      split; [exact Hc|]. split; [exact Hp|].
      split.
      { apply NoDup_app; [exact He | repeat constructor; simpl; tauto |].
        intros x Hx [<-|[]]. now apply first_by_email_none in Hu. }
      split.
      { apply NoDup_app; [exact Hi | repeat constructor; simpl; tauto |].
        intros x Hx [<-|[]]. now apply fresh_key_new in Hx. }
      split.
      { apply Forall_app. split; [exact Hr | now repeat constructor]. }
      split.
      { intros uid Huid. destruct (Hpr uid Huid) as (x & Hin & Hx).
        exists x. split; [apply in_or_app; now left | exact Hx]. }
      split; [exact Hf|].
      eapply Forall_impl; [|exact Ha]. intros post Hin.
      apply in_or_app. now left.
  - unfold register. rewrite Hv. cbn [snd ret]. now destruct s.
Qed.

Lemma add_post_invariant (s : site) (title content : option string) (now : Z) :
  site_invariant s -> site_invariant (snd (add_post title content now s)).
Proof.
  intros Hinv. pose proof Hinv as (Hc & Hp & He & Hi & Hr & Hpr & Hf & Ha).
  unfold add_post.
  destruct (s_user (w_session (site_world s))) as [uid|] eqn:Huid.
  - destruct title as [[|a t]|], content as [[|b c]|];
      cbn [truthy andb]; try (now apply invariant_flash).
    unfold on_world, db_insert_post. cbn [snd site_world site_posts].
    apply (invariant_flash
             {| site_world := site_world s;
                site_posts := site_posts s
                              ++ [{| fp_id := fresh_key (map fp_id (site_posts s));
                                     fp_title := String a t;
                                     fp_content := String b c;
                                     fp_user_id := uid; fp_created_at := now |}] |}).
    unfold site_invariant. cbn [site_world site_posts].
    split; [exact Hc|]. split; [exact Hp|]. split; [exact He|].
    split; [exact Hi|]. split; [exact Hr|]. split; [exact Hpr|]. split.
    + rewrite map_app. cbn [map fp_id].
      apply NoDup_app; [exact Hf | repeat constructor; simpl; tauto |].
      intros x Hx [<-|[]]. now apply fresh_key_new in Hx.
    + apply Forall_app. split; [exact Ha|]. repeat constructor. cbn [fp_user_id].
      destruct (Hpr uid Huid) as (u & Hin & Hid & _).
      apply in_map_iff. now exists u.
  - now apply invariant_flash.
Qed.

Lemma site_serve_invariant (rq : site_request) (s : site) :
  site_invariant s ->
  site_invariant
    (snd (site_serve float_of_str validate_on_submit check_password_hash
            validate_register generate_password_hash rq s)).
Proof.
  intros Hinv. pose proof Hinv as (Hc & Hp & He & Hi & Hr & Hpr & Hf & Ha).
  destruct rq as [rq|name email password salt| | | | | | |title content now];
    cbn [site_serve].
  - unfold on_world. cbn [snd].
    change (snd (answer (serve float_of_str validate_on_submit check_password_hash rq)
                   (site_world s)))
      with (snd (let (r, w') := serve float_of_str validate_on_submit
                                  check_password_hash rq (site_world s) in
                 match r with
                 | Ok a => (Ok (Answer a), w')
                 | Raise e => (Raise e, w')
                 end)).
    assert (E : forall out : result response * world,
               snd (let (r, w') := out in
                    match r with
                    | Ok a => (Ok (Answer a), w')
                    | Raise e => (Raise e, w')
                    end) = snd out)
      by (intros [[a|e] w']; reflexivity).
    rewrite E.
    destruct (core_keeps_tables float_of_str validate_on_submit
                check_password_hash rq (site_world s)) as (Hu & Hps & Hprin).
    apply invariant_on_world; auto.
    now apply (serve_invariant float_of_str validate_on_submit
                 check_password_hash rq (site_world s)).
  - now apply register_invariant.
  - unfold on_world. cbn [snd].
    apply invariant_on_world; try assumption; try reflexivity.
    + split; constructor.
    + intros uid Huid. discriminate.
  - unfold on_world, profile, bind, session_user, flash, redirect, ret.
    cbn [fst snd].
    destruct (s_user (w_session (site_world s)));
      [now destruct s | now apply invariant_flash].
  - now destruct s.
  - unfold on_world, admin_dashboard, bind, session_user, flash, redirect, ret,
      all_users, all_products.
    cbn [fst snd].
    destruct (s_user (w_session (site_world s)));
      [now destruct s | now apply invariant_flash].
  - now destruct s.
  - exact Hinv.
  - now apply add_post_invariant.
Qed.

(** The cookie rearranges the lines of the cart and touches nothing else
    of what the routes keep true. *)
Lemma site_next_request_invariant (s : site) :
  site_invariant s -> site_invariant (site_next_request s).
Proof.
  intros Hinv. pose proof Hinv as (Hc & Hp & He & Hi & Hr & Hpr & Hf & Ha).
  destruct (next_request_keeps (site_world s)) as (Hps & Hu & H1 & H2 & H3 & _).
  unfold site_next_request. apply invariant_on_world.
  - exact Hinv.
  - now apply next_request_invariant.
  - now rewrite Hps.
  - exact Hu.
  - now apply (principal_kept (site_world s)).
Qed.

Lemma reachable_site_invariant_of_model (rqs : list site_request) :
  site_invariant
    (site_serve_all float_of_str validate_on_submit check_password_hash
       validate_register generate_password_hash rqs initial_site).
Proof.
  assert (H0 : site_invariant initial_site).
  { unfold site_invariant. cbn.
    repeat split; try constructor; try discriminate;
      repeat constructor; simpl; intuition discriminate. }
  revert H0. generalize initial_site.
  induction rqs as [|rq rest IH]; intros s Hs; simpl.
  - exact Hs.
  - apply IH. apply site_next_request_invariant.
    now apply site_serve_invariant.
Qed.

(** Whatever requests are made of the application started on an empty
    database, to any of the routes and in any order, the session travelling
    in its cookie from each to the next: the keys of the cart, the keys of
    the products, the emails and keys of the users and the keys of the
    posts are distinct; every user has the role "user"; a session that
    names a user names a stored one, with that user's name and role; and
    every post has a stored user as author. *)
Theorem reachable_site_invariant (rqs : list site_request) :
  tables_invariant
    (site_serve_all float_of_str validate_on_submit check_password_hash
       validate_register generate_password_hash rqs initial_site).
Proof.
  destruct (reachable_site_invariant_of_model rqs)
    as ([Hc _] & Hp & He & Hi & Hr & Hpr & Hf & Ha).
  repeat split; assumption.
Qed.

End SiteInvariant.

(** ** Quantities the views cannot price *)

Lemma api_get_cart_loop_raises (ps : list Product) (items : dict cart_line) :
  decimal_keys items ->
  forall (acc : list pyval) (total : pyval),
    amounts_of (dict_values (resolvable ps items)) = None ->
    (exists a, total = PyInt 0 \/ total = PyFloat a) ->
    exists e, api_get_cart_loop ps items acc total = Raise e.
Proof.
  induction 1 as [|[key item] rest [id Hk] Hrest IH]; intros acc total Hnone Htot;
    [discriminate|].
  simpl in Hk. cbn [api_get_cart_loop py_int]. rewrite Hk. cbn [rbind].
  unfold resolvable in *. cbn [filter fst] in Hnone.
  destruct (query_get ps id) as [product|] eqn:Hq.
  - destruct (resolves_found ps key id product Hk Hq) as [Hres _].
    rewrite Hres in Hnone. cbn [dict_values map snd amounts_of] in Hnone.
    destruct (amount_of item) as [x|] eqn:Hx.
    + rewrite (py_mul_amount _ _ Hx). cbn [rbind].
      fold (dict_values (filter (fun kv => resolves ps (fst kv)) rest)) in Hnone.
      destruct (amounts_of _) eqn:Hrest'; [discriminate|].
      destruct Htot as [a [-> | ->]].
      * destruct (add_to_zero x) as [_ ->]. cbn [rbind].
        apply IH; [reflexivity | exists (0 + x)%float; now right].
      * destruct (add_to_float a x) as [_ ->]. cbn [rbind].
        apply IH; [reflexivity | exists (a + x)%float; now right].
    + destruct (py_mul_no_amount _ Hx) as [e ->]. now exists e.
  - rewrite (resolves_missing ps key id Hk Hq) in Hnone.
    destruct (sqlite_integer id); [now apply IH | now exists sqlite_overflow].
Qed.

(** When a line of the cart that resolves in the catalog has a quantity that
    is not a number with a float value (a text, for one), the keys being
    decimal texts: [/cart] raises and shows nothing, and [GET /api/cart]
    answers 400 with the text of an exception.  Neither changes the
    world. *)
Theorem cart_views_fail_on_unpriced_line (w : world) :
  decimal_keys (cart_of w) ->
  amounts_of (dict_values (resolvable (w_products w) (cart_of w))) = None ->
  (exists e, view_cart w = (Raise e, w))
  /\ (exists e, api_get_cart w = (Ok (Json 400 (error_body e)), w)).
Proof.
  intros Hkeys Hres. split.
  - apply view_cart_raises. now apply (amounts_of_sublist_none (w_products w)).
  - rewrite api_get_cart_run.
    destruct (api_get_cart_loop_raises _ _ Hkeys [] (PyInt 0) Hres) as [e ->].
    + exists 0%float. now left.
    + now exists e.
Qed.

Lemma cart_views_fail_on_unpriced_line_witness :
  let w := world_with_cart [("2", apple_line (PyInt 2));
                            ("1", tomato_line (PyStr "abc"))] in
  amounts_of (dict_values (resolvable (w_products w) (cart_of w))) = None
  /\ (exists e, view_cart w = (Raise e, w))
  /\ (exists e, api_get_cart w = (Ok (Json 400 (error_body e)), w)).
Proof.
  intros w. split; [reflexivity|].
  refine (cart_views_fail_on_unpriced_line w _ eq_refl).
  repeat constructor; simpl; eexists; vm_compute; reflexivity.
Defined.
